(** * Emotion Eye Tracker: the renderer's telemetry client and the
    main process's worker supervisor

  A shallow embedding of [electron-app/renderer/js/app.js] (connection
  handlers, tracking-data recorder, session commands, export and summary)
  and of the Python backend launcher of [electron-app/main.js], followed
  by the properties established about them.

  Conventions.
  - JavaScript values that travel through the code untouched (JSON
    payloads, command objects) are kept as a small value type [Js.value].
  - The renderer's module-level [state] and [elements] objects become one
    record [State] threaded through the handlers. A handler is a function
    [State -> Outcome unit]: it either returns or throws, and in both
    cases the mutations performed so far are kept, as in JavaScript.
  - [Date.now()], [Math.random()] and the host capabilities are inputs of
    the handlers. Clock readings are time values, for which
    [toISOString] is defined.
  - The page is taken to hold every element the script looks up. Of the
    DOM, the buttons' [disabled] flags and the log container are kept.
    What is drawn (text nodes, canvas, emotion bars, camera stream) is
    not; the exceptions that the rendering statements raise on a payload
    of the wrong shape ([toFixed], [charAt] and the conversions to string
    and number) are, since they end the handler before the statements
    that follow. *)

From Stdlib Require Import String Ascii List Bool Arith ZArith QArith Lia.
From Stdlib Require Import DecimalString Decimal DecimalNat Sorted.

Set Warnings "-register-all".
Import ListNotations.

Local Close Scope Q_scope.
Local Open Scope nat_scope.
Local Open Scope string_scope.
Local Open Scope list_scope.

(* ------------------------------------------------------------------ *)
(** ** JavaScript values *)

Module Js.

(** JSON values plus [undefined]. An object is its own properties in
    enumeration order. *)
Inductive value : Type :=
| Undefined
| Null
| Bool (b : bool)
| Number (q : Q)
| Str (s : string)
| Arr (items : list value)
| Obj (props : list (string * value)).

(** Exceptions the modelled code can raise. *)
Inductive Exn : Type :=
| SyntaxError
| TypeError.

(** ToBoolean. *)
Definition truthy (v : value) : bool :=
  match v with
  | Undefined | Null => false
  | Bool b => b
  | Number q => negb (Qeq_bool q 0%Q)
  | Str s => negb (String.eqb s "")
  | Arr _ | Obj _ => true
  end.

Fixpoint assoc {A : Type} (k : string) (l : list (string * A)) : option A :=
  match l with
  | [] => None
  | (k', v) :: rest => if String.eqb k k' then Some v else assoc k rest
  end.

(** [v.k] for a property name [k] that no built-in prototype defines
    (every name the renderer reads from a message is of that kind):
    [None] stands for the TypeError raised on [null] and [undefined]. *)
Definition get (v : value) (k : string) : option value :=
  match v with
  | Undefined | Null => None
  | Obj props =>
      Some (match assoc k props with Some x => x | None => Undefined end)
  | _ => Some Undefined
  end.

(** [a || b]. *)
Definition or (a b : value) : value := if truthy a then a else b.

(** [v === 'lit'] for a string literal. *)
Definition is_string (v : value) (lit : string) : bool :=
  match v with
  | Str s => String.eqb s lit
  | _ => false
  end.

Definition decimal (n : nat) : string :=
  NilZero.string_of_uint (Nat.to_uint n).

Fixpoint indexed {A : Type} (i : nat) (l : list A) : list (string * A) :=
  match l with
  | [] => []
  | a :: rest => (decimal i, a) :: indexed (S i) rest
  end.

Fixpoint chars (s : string) : list value :=
  match s with
  | EmptyString => []
  | String c rest => Str (String c EmptyString) :: chars rest
  end.

(** The own enumerable properties copied by an object spread
    [{ ...v }]. *)
Definition spread (v : value) : list (string * value) :=
  match v with
  | Obj props => props
  | Arr items => indexed 0 items
  | Str s => indexed 0 (chars s)
  | _ => []
  end.

Definition keys {A : Type} (props : list (string * A)) : list string :=
  map fst props.

(** Whether the conversion of [v] to a string or to a number succeeds.
    It raises a TypeError on an object that has an own [toString]
    property, which coming from JSON is not callable, and on an array with
    such an element. *)
Fixpoint converts (v : value) : bool :=
  match v with
  | Obj props =>
      match assoc "toString" props with
      | Some _ => false
      | None => true
      end
  | Arr items => forallb converts items
  | _ => true
  end.

End Js.

(* ------------------------------------------------------------------ *)
(** ** The renderer: renderer/js/app.js *)

Module Renderer.

Import Js.

(** [WebSocket.readyState]. *)
Inductive ReadyState : Type := CONNECTING | OPEN | CLOSING | CLOSED.

(** One stored gaze point: [{ x, y, timestamp }]. *)
Record GazePoint : Type := mkGazePoint {
  x : Q;
  y : Q;
  timestamp : Z
}.

(** One stored emotion entry, as pushed by [handleTrackingData]. *)
Record EmotionEntry : Type := mkEmotionEntry {
  emotion : string;
  scores : list (string * value);
  entry_timestamp : Z
}.

(** The object literal of an emotion entry, as it sits in
    [sessionData.emotions] and is handed to the export. *)
Definition emotion_entry_object (e : EmotionEntry) : list (string * value) :=
  [ ("emotion", Str (emotion e));
    ("scores", Obj (scores e));
    ("timestamp", Number (inject_Z (entry_timestamp e))) ].

Definition gaze_point_object (g : GazePoint) : list (string * value) :=
  [ ("x", Number (x g));
    ("y", Number (y g));
    ("timestamp", Number (inject_Z (timestamp g))) ].

(** [state.sessionData]; [startTime] is [null] until the first start. *)
Record SessionData : Type := mkSessionData {
  startTime : option Z;
  emotions : list EmotionEntry;
  gazePoints : list GazePoint
}.

(** Entries of the log container. Template literals are kept
    structured. *)
Inductive LogEntry : Type :=
| Text (s : string)
| ServerResponded (command status : value)
| Detected (label : string) (confidence : value)
| WillBeSavedTo (path : string).

Inductive ButtonId : Type := startBtn | stopBtn | calibrateBtn | exportBtn.

(** The [disabled] flag of each button. *)
Record Buttons : Type := mkButtons {
  start_disabled : bool;
  stop_disabled : bool;
  calibrate_disabled : bool;
  export_disabled : bool
}.

(** Summary object built by [generateSummary]. A field that the object
    literal does not define is [None] (reading it gives [undefined]). *)
Inductive CountValue : Type :=
| Count (n : nat)
| NotNumeric.

Record Summary : Type := mkSummary {
  primaryEmotion : string;
  emotionCounts : list (string * CountValue);
  totalEmotionSamples : option nat;
  totalGazeSamples : option nat;
  sessionDurationMs : option Z
}.

(** The export artifact; the two dates are kept as the time values that
    [toISOString] renders. *)
Record ExportData : Type := mkExportData {
  sessionId : option Z;
  startTimeISO : Z;
  endTimeISO : Z;
  exported_emotions : list EmotionEntry;
  exported_gazePoints : list GazePoint;
  summary : Summary
}.

(** Where an export artifact went. *)
Inductive ExportSink : Type :=
| ViaHostApi (d : ExportData)
| ViaDownloadLink (d : ExportData).

(** The renderer's mutable world: [state], the buttons and log of
    [elements], the socket's ready state, what was written to the socket
    and what was exported. *)
Record State : Type := mkState {
  isTracking : bool;
  wsConnection : option ReadyState;
  currentEmotions : value;
  gazeData : value * value;
  sessionData : SessionData;
  buttons : Buttons;
  logContainer : list LogEntry;
  sent : list value;
  exports : list ExportSink
}.

(** The state right after the script is loaded. [btns] is what the
    page's markup says about the buttons. *)
Definition initial_state (btns : Buttons) : State :=
  {| isTracking := false;
     wsConnection := None;
     currentEmotions := Obj [];
     gazeData := (Number (1 # 2)%Q, Number (1 # 2)%Q);
     sessionData := {| startTime := None; emotions := []; gazePoints := [] |};
     buttons := btns;
     logContainer := [];
     sent := [];
     exports := [] |}.

(** *** State updates *)

Definition set_isTracking (b : bool) (s : State) : State :=
  mkState b (wsConnection s) (currentEmotions s) (gazeData s)
          (sessionData s) (buttons s) (logContainer s) (sent s) (exports s).

Definition set_wsConnection (w : option ReadyState) (s : State) : State :=
  mkState (isTracking s) w (currentEmotions s) (gazeData s)
          (sessionData s) (buttons s) (logContainer s) (sent s) (exports s).

Definition set_currentEmotions (v : value) (s : State) : State :=
  mkState (isTracking s) (wsConnection s) v (gazeData s)
          (sessionData s) (buttons s) (logContainer s) (sent s) (exports s).

Definition set_gazeData (g : value * value) (s : State) : State :=
  mkState (isTracking s) (wsConnection s) (currentEmotions s) g
          (sessionData s) (buttons s) (logContainer s) (sent s) (exports s).

Definition set_sessionData (d : SessionData) (s : State) : State :=
  mkState (isTracking s) (wsConnection s) (currentEmotions s) (gazeData s)
          d (buttons s) (logContainer s) (sent s) (exports s).

Definition set_buttons (b : Buttons) (s : State) : State :=
  mkState (isTracking s) (wsConnection s) (currentEmotions s) (gazeData s)
          (sessionData s) b (logContainer s) (sent s) (exports s).

Definition set_logContainer (l : list LogEntry) (s : State) : State :=
  mkState (isTracking s) (wsConnection s) (currentEmotions s) (gazeData s)
          (sessionData s) (buttons s) l (sent s) (exports s).

Definition set_sent (l : list value) (s : State) : State :=
  mkState (isTracking s) (wsConnection s) (currentEmotions s) (gazeData s)
          (sessionData s) (buttons s) (logContainer s) l (exports s).

Definition set_exports (l : list ExportSink) (s : State) : State :=
  mkState (isTracking s) (wsConnection s) (currentEmotions s) (gazeData s)
          (sessionData s) (buttons s) (logContainer s) (sent s) l.

Definition set_disabled (b : ButtonId) (d : bool) (bs : Buttons) : Buttons :=
  match b with
  | startBtn => mkButtons d (stop_disabled bs) (calibrate_disabled bs) (export_disabled bs)
  | stopBtn => mkButtons (start_disabled bs) d (calibrate_disabled bs) (export_disabled bs)
  | calibrateBtn => mkButtons (start_disabled bs) (stop_disabled bs) d (export_disabled bs)
  | exportBtn => mkButtons (start_disabled bs) (stop_disabled bs) (calibrate_disabled bs) d
  end.

Definition enableButton (b : ButtonId) (s : State) : State :=
  set_buttons (set_disabled b false (buttons s)) s.

Definition disableButton (b : ButtonId) (s : State) : State :=
  set_buttons (set_disabled b true (buttons s)) s.

(** [addLogEntry]: append, then drop from the front while more than a
    hundred entries are held. *)
Definition addLogEntry (e : LogEntry) (s : State) : State :=
  let l := logContainer s ++ [e] in
  set_logContainer (skipn (length l - 100) l) s.

Definition push_gazePoint (g : GazePoint) (s : State) : State :=
  let d := sessionData s in
  set_sessionData (mkSessionData (startTime d) (emotions d) (gazePoints d ++ [g])) s.

Definition push_emotion (e : EmotionEntry) (s : State) : State :=
  let d := sessionData s in
  set_sessionData (mkSessionData (startTime d) (emotions d ++ [e]) (gazePoints d)) s.

(** [state.wsConnection && state.wsConnection.readyState === WebSocket.OPEN] *)
Definition connection_open (s : State) : bool :=
  match wsConnection s with
  | Some OPEN => true
  | _ => false
  end.

(** [state.wsConnection.send(JSON.stringify({ command: name }))]: the
    object written to the channel is recorded. *)
Definition send_command (name : string) (s : State) : State :=
  set_sent (sent s ++ [Obj [("command", Str name)]]) s.

(** *** Handlers that return or throw *)

Inductive Outcome (A : Type) : Type :=
| Returned (a : A) (s : State)
| Threw (e : Exn) (s : State).
Arguments Returned {A} a s.
Arguments Threw {A} e s.

Definition M (A : Type) : Type := State -> Outcome A.

Definition ret {A : Type} (a : A) : M A := fun s => Returned a s.

Definition bind {A B : Type} (c : M A) (k : A -> M B) : M B :=
  fun s =>
    match c s with
    | Returned a s' => k a s'
    | Threw e s' => Threw e s'
    end.

Definition throw {A : Type} (e : Exn) : M A := fun s => Threw e s.

Definition read : M State := fun s => Returned s s.

Definition update (f : State -> State) : M unit := fun s => Returned tt (f s).

(** The state a handler leaves behind, however it ended. *)
Definition final_state {A : Type} (o : Outcome A) : State :=
  match o with
  | Returned _ s => s
  | Threw _ s => s
  end.

Definition raised {A : Type} (o : Outcome A) : option Exn :=
  match o with
  | Returned _ _ => None
  | Threw e _ => Some e
  end.

Notation "x <- c ;; k" := (bind c (fun x => k))
  (at level 61, c at next level, right associativity).
Notation "c ;;; k" := (bind c (fun _ => k))
  (at level 61, right associativity).

(** Property read that throws on [null] and [undefined]. *)
Definition prop (v : value) (k : string) : M value :=
  match get v k with
  | Some r => ret r
  | None => throw TypeError
  end.

(** [v.toFixed(2)]: only a number has the method. The rendered text is
    not kept; the number is handed on. *)
Definition toFixed (v : value) : M Q :=
  match v with
  | Number q => ret q
  | _ => throw TypeError
  end.

(** [v.charAt(0).toUpperCase() + v.slice(1)]: only a string has the
    methods. The capitalised text is not kept; the string is handed on. *)
Definition charAt_slice (v : value) : M string :=
  match v with
  | Str s => ret s
  | _ => throw TypeError
  end.

(** A template literal or a [textContent] assignment converts [v] to a
    string; the text itself is not kept. *)
Definition to_string (v : value) : M unit :=
  if converts v then ret tt else throw TypeError.

(** The keys of [CONFIG.emotionColors]: the labels that have a bar. *)
Definition emotionColors : list string :=
  [ "happy"; "sad"; "angry"; "surprise"; "disgust"; "fear"; "neutral";
    "contempt"; "bored"; "confused"; "anxious"; "excited"; "proud";
    "shame"; "guilt" ].

Definition has_bar (emotion : string) : bool :=
  existsb (String.eqb emotion) emotionColors.

(** [updateEmotionBars(emotionScores)]: for every key that has a bar,
    [value * 100] converts the value to a number. The bars themselves are
    not kept. *)
Definition updateEmotionBars (emotionScores : value) : M unit :=
  if forallb (fun kv => negb (has_bar (fst kv)) || converts (snd kv))
       (spread emotionScores)
  then ret tt
  else throw TypeError.

(** *** Inbound frames *)

(** What [JSON.parse(event.data)] makes of a frame. *)
Inductive Frame : Type :=
| NotJson
| Json (message : value).

Definition JSON_parse (f : Frame) : M value :=
  match f with
  | NotJson => throw SyntaxError
  | Json message => ret message
  end.

(** The readings of [Date.now()] and [Math.random() < 0.05] taken while one
    tracking frame is handled. *)
Record Env : Type := mkEnv {
  now_gaze : Z;
  now_emotion : Z;
  random_below_005 : bool
}.

(** [handleTrackingData(data)] *)
Definition handleTrackingData (data : value) (env : Env) : M unit :=
  st <- read ;;
  if negb (isTracking st) then ret tt else
  gaze <- prop data "gaze" ;;
  (if truthy gaze then
     gazeX <- prop gaze "GazeX" ;;
     gazeY <- prop gaze "GazeY" ;;
     update (set_gazeData (gazeX, gazeY)) ;;;
     gx <- toFixed gazeX ;;
     gy <- toFixed gazeY ;;
     update (push_gazePoint (mkGazePoint gx gy (now_gaze env)))
   else ret tt) ;;;
  emo <- prop data "emotion" ;;
  if truthy emo then
    emotion_v <- prop emo "emotion" ;;
    emotionScores <- prop emo "emotion_scores" ;;
    confidence_v <- prop emo "confidence" ;;
    let confidence := Js.or confidence_v (Number 0%Q) in
    update (set_currentEmotions emotionScores) ;;;
    label <- charAt_slice emotion_v ;;
    to_string confidence ;;;
    updateEmotionBars emotionScores ;;;
    update (push_emotion
              (mkEmotionEntry label (spread emotionScores) (now_emotion env))) ;;;
    if random_below_005 env
    then update (addLogEntry (Detected label confidence))
    else ret tt
  else ret tt.

(** [state.wsConnection.onmessage] *)
Definition onmessage (frame : Frame) (env : Env) : M unit :=
  message <- JSON_parse frame ;;
  type <- prop message "type" ;;
  if is_string type "tracking_data" then
    data <- prop message "data" ;;
    handleTrackingData data env
  else if is_string type "command_response" then
    command <- prop message "command" ;;
    status <- prop message "status" ;;
    to_string command ;;;
    to_string status ;;;
    update (addLogEntry (ServerResponded command status))
  else ret tt.

(** *** Connection handlers *)

(** [connectWebSocket()]; [failure] is the message of the exception the
    [WebSocket] constructor raised, if it raised one. *)
Definition connectWebSocket (failure : option string) (s : State) : State :=
  let s := addLogEntry
             (Text "Connecting to eye tracking and emotion detection server...") s in
  match failure with
  | None => set_wsConnection (Some CONNECTING) s
  | Some msg => addLogEntry (Text ("Failed to connect: " ++ msg)) s
  end.

(** [state.wsConnection.onopen] *)
Definition onopen (s : State) : State :=
  enableButton startBtn
    (addLogEntry (Text "Connected to server successfully.") s).

(** [state.wsConnection.onclose] *)
Definition onclose (s : State) : State :=
  set_isTracking false
    (disableButton calibrateBtn
       (disableButton stopBtn
          (disableButton startBtn
             (addLogEntry (Text "Connection to server closed.") s)))).

(** [state.wsConnection.onerror] *)
Definition onerror (s : State) : State :=
  addLogEntry
    (Text "WebSocket error: Please make sure the Python server is running.") s.

(** *** Session commands *)

(** [startVideo()]; only the synchronous branch touches the log. *)
Definition startVideo (getUserMedia : bool) (s : State) : State :=
  if getUserMedia then s
  else addLogEntry (Text "getUserMedia is not supported by this browser") s.

(** [startTracking()] *)
Definition startTracking (now : Z) (getUserMedia : bool) (s : State) : State :=
  if negb (connection_open s) then
    addLogEntry (Text "Cannot start: No connection to server.") s
  else
    let s := addLogEntry (Text "Starting tracking session...") s in
    let s := set_sessionData (mkSessionData (Some now) [] []) s in
    let s := send_command "start_tracking" s in
    let s := set_isTracking true s in
    let s := disableButton startBtn s in
    let s := enableButton stopBtn s in
    let s := enableButton calibrateBtn s in
    startVideo getUserMedia s.

(** [stopTracking()] *)
Definition stopTracking (s : State) : State :=
  if negb (isTracking s) then s
  else
    let s := addLogEntry (Text "Stopping tracking session...") s in
    let s := if connection_open s then send_command "stop_tracking" s else s in
    let s := set_isTracking false s in
    let s := enableButton startBtn s in
    let s := disableButton stopBtn s in
    let s := disableButton calibrateBtn s in
    let s := enableButton exportBtn s in
    addLogEntry (Text "Session stopped. Data can now be exported.") s.

(** [calibrateGaze()] *)
Definition calibrateGaze (s : State) : State :=
  if negb (isTracking s) then s
  else
    let s := addLogEntry (Text "Starting calibration process...") s in
    if connection_open s then send_command "calibrate" s else s.

(** *** The counting object of [generateSummary] *)

(** Names an object literal inherits from [Object.prototype]. *)
Definition object_prototype_names : list string :=
  [ "constructor"; "__defineGetter__"; "__defineSetter__"; "hasOwnProperty";
    "__lookupGetter__"; "__lookupSetter__"; "isPrototypeOf";
    "propertyIsEnumerable"; "toString"; "valueOf"; "__proto__";
    "toLocaleString" ].

Definition inherited (k : string) : bool :=
  existsb (String.eqb k) object_prototype_names.

(** The array index a property name denotes, if it is the canonical decimal
    form of an integer below 2^32 - 1. Such names are enumerated first, in
    ascending order. *)
Definition array_index (k : string) : option N :=
  match k with
  | EmptyString => None
  | String c rest =>
      if Ascii.eqb c "0" && negb (String.eqb rest "") then None
      else
        match NilEmpty.uint_of_string k with
        | Some d =>
            let n := N.of_uint d in
            if (n <=? 4294967294)%N then Some n else None
        | None => None
        end
  end.

(** What reading [obj[k]] finds. *)
Inductive Lookup : Type :=
| Own (v : CountValue)
| Inherited
| Missing.

Definition lookup (obj : list (string * CountValue)) (k : string) : Lookup :=
  match assoc k obj with
  | Some v => Own v
  | None => if inherited k then Inherited else Missing
  end.

(** [(obj[k] || 0) + 1]. An inherited member is an object or a function:
    it is truthy and [+ 1] concatenates, giving a string that is not
    numeric; such a string is truthy again. *)
Definition incremented (r : Lookup) : CountValue :=
  match r with
  | Own (Count n) => Count (n + 1)
  | Own NotNumeric => NotNumeric
  | Inherited => NotNumeric
  | Missing => Count 1
  end.

Fixpoint replace_or_append (k : string) (v : CountValue)
  (obj : list (string * CountValue)) : list (string * CountValue) :=
  match obj with
  | [] => [(k, v)]
  | (k', v') :: rest =>
      if String.eqb k k' then (k', v) :: rest
      else (k', v') :: replace_or_append k v rest
  end.

(** [obj[k] = v] for a primitive [v]: the [__proto__] setter ignores
    it; any other name becomes or stays an own property, created last. *)
Definition assign (k : string) (v : CountValue)
  (obj : list (string * CountValue)) : list (string * CountValue) :=
  if String.eqb k "__proto__" then obj else replace_or_append k v obj.

(** One call of the [forEach] callback: [obj[l] = (obj[l] || 0) + 1]. *)
Definition count_step (obj : list (string * CountValue)) (l : string)
  : list (string * CountValue) :=
  assign l (incremented (lookup obj l)) obj.

(** The [forEach] that counts the occurrences of each label. *)
Definition count_emotions (es : list EmotionEntry) : list (string * CountValue) :=
  fold_left (fun obj entry => count_step obj (emotion entry)) es [].

Fixpoint insert_by_index (p : N * string) (l : list (N * string)) : list (N * string) :=
  match l with
  | [] => [p]
  | q :: rest =>
      if (fst p <=? fst q)%N then p :: l else q :: insert_by_index p rest
  end.

Definition index_keys (ks : list string) : list (N * string) :=
  fold_right
    (fun k acc =>
       match array_index k with
       | Some n => insert_by_index (n, k) acc
       | None => acc
       end)
    [] ks.

Definition is_named (k : string) : bool :=
  match array_index k with
  | Some _ => false
  | None => true
  end.

(** The order in which [for (k in obj)] visits the own properties:
    array indices ascending, then the other names in creation order. *)
Definition for_in_keys (obj : list (string * CountValue)) : list string :=
  map snd (index_keys (keys obj)) ++ filter is_named (keys obj).

(** [obj[k] > maxCount]; a string that is not numeric compares as NaN. *)
Definition greater_than (r : Lookup) (maxCount : nat) : bool :=
  match r with
  | Own (Count n) => (maxCount <? n)%nat
  | _ => false
  end.

(** One turn of the loop that finds the most common emotion. *)
Definition consider (obj : list (string * CountValue)) (acc : string * nat)
  (emotion : string) : string * nat :=
  let '(primaryEmotion, maxCount) := acc in
  if greater_than (lookup obj emotion) maxCount
  then (emotion,
        match lookup obj emotion with
        | Own (Count n) => n
        | _ => maxCount
        end)
  else (primaryEmotion, maxCount).

(** The loop, started with [primaryEmotion = 'neutral'] and
    [maxCount = 0]. *)
Definition most_common (obj : list (string * CountValue)) : string * nat :=
  fold_left (consider obj) (for_in_keys obj) ("neutral", 0).

(** [Date.now() - state.sessionData.startTime], [null] counting as 0. *)
Definition since (now : Z) (start : option Z) : Z :=
  match start with
  | Some t => (now - t)%Z
  | None => now
  end.

(** [generateSummary()] *)
Definition generateSummary (now : Z) (s : State) : Summary :=
  let emotions := emotions (sessionData s) in
  let gazePoints := gazePoints (sessionData s) in
  if (length emotions =? 0)%nat then
    {| primaryEmotion := "none";
       emotionCounts := [];
       totalEmotionSamples := None;
       totalGazeSamples := None;
       sessionDurationMs := None |}
  else
    let emotionCounts := count_emotions emotions in
    {| primaryEmotion := fst (most_common emotionCounts);
       emotionCounts := emotionCounts;
       totalEmotionSamples := Some (length emotions);
       totalGazeSamples := Some (length gazePoints);
       sessionDurationMs := Some (since now (startTime (sessionData s))) |}.

(** The time value of [new Date(startTime)], [null] giving the epoch. *)
Definition date_of (start : option Z) : Z :=
  match start with
  | Some t => t
  | None => 0%Z
  end.

(** [exportData()]; [now_end] and [now_summary] are the two clock readings
    and [api] tells whether [window.api] exists. *)
Definition exportData (now_end now_summary : Z) (api : bool) (s : State) : State :=
  let d := sessionData s in
  if ((length (emotions d) =? 0) && (length (gazePoints d) =? 0))%nat then
    addLogEntry (Text "No data to export.") s
  else
    let s := addLogEntry (Text "Preparing data for export...") s in
    let exportData :=
      {| sessionId := startTime d;
         startTimeISO := date_of (startTime d);
         endTimeISO := now_end;
         exported_emotions := emotions d;
         exported_gazePoints := gazePoints d;
         summary := generateSummary now_summary s |} in
    if api then
      addLogEntry (Text "Data sent to be saved...")
        (set_exports (exports s ++ [ViaHostApi exportData]) s)
    else
      addLogEntry (Text "Data exported successfully.")
        (set_exports (exports s ++ [ViaDownloadLink exportData]) s).

(** The value of [a + b] for two summary fields: a number when both are
    defined, NaN as soon as one is [undefined]. *)
Inductive NumberOrNaN : Type :=
| Finite (n : nat)
| NaN.

Definition js_add (a b : option nat) : NumberOrNaN :=
  match a, b with
  | Some m, Some n => Finite (m + n)
  | _, _ => NaN
  end.

(** *** Frames in the wire format *)

(** The payload of a [tracking_data] frame as the worker emits it: an
    optional [gaze] object with two numbers and an optional [emotion]
    object with a label, a score per label and an optional confidence. *)
Record GazeSection : Type := mkGazeSection {
  GazeX : Q;
  GazeY : Q
}.

Record EmotionSection : Type := mkEmotionSection {
  label : string;
  emotion_scores : list (string * Q);
  confidence : option Q
}.

Record TrackingData : Type := mkTrackingData {
  gaze : option GazeSection;
  emotion_section : option EmotionSection
}.

Definition score_props (l : list (string * Q)) : list (string * value) :=
  map (fun kv => (fst kv, Number (snd kv))) l.

Definition gaze_value (g : GazeSection) : value :=
  Obj [("GazeX", Number (GazeX g)); ("GazeY", Number (GazeY g))].

Definition emotion_value (e : EmotionSection) : value :=
  Obj ([("emotion", Str (label e));
        ("emotion_scores", Obj (score_props (emotion_scores e)))]
       ++ match confidence e with
          | Some c => [("confidence", Number c)]
          | None => []
          end).

Definition data_value (d : TrackingData) : value :=
  Obj (match gaze d with
       | Some g => [("gaze", gaze_value g)]
       | None => []
       end
       ++ match emotion_section d with
          | Some e => [("emotion", emotion_value e)]
          | None => []
          end).

(** The frame, once parsed, that carries [d]. *)
Definition tracking_data_frame (d : TrackingData) : Frame :=
  Json (Obj [("type", Str "tracking_data"); ("data", data_value d)]).

(** Frames are handled one at a time in receipt order; a handler that
    throws ends that frame only. The run gives the final state and the
    exceptions raised on the way. *)
Fixpoint deliver_all (s : State) (fs : list (Frame * Env)) : State * list Exn :=
  match fs with
  | [] => (s, [])
  | (f, env) :: rest =>
      let o := onmessage f env s in
      let r := deliver_all (final_state o) rest in
      (fst r,
       match raised o with
       | Some e => e :: snd r
       | None => snd r
       end)
  end.

(** The samples a well-formed frame is expected to leave in the session. *)
Definition gaze_sample (fe : TrackingData * Env) : list GazePoint :=
  match gaze (fst fe) with
  | Some g => [mkGazePoint (GazeX g) (GazeY g) (now_gaze (snd fe))]
  | None => []
  end.

Definition emotion_sample (fe : TrackingData * Env) : list EmotionEntry :=
  match emotion_section (fst fe) with
  | Some e => [mkEmotionEntry (label e) (score_props (emotion_scores e))
                 (now_emotion (snd fe))]
  | None => []
  end.

(** Number of sections present in a frame. *)
Definition sections (d : TrackingData) : nat :=
  match gaze d with Some _ => 1 | None => 0 end
  + match emotion_section d with Some _ => 1 | None => 0 end.

Definition stored_samples (s : State) : nat :=
  length (gazePoints (sessionData s)) + length (emotions (sessionData s)).

(** Number of sections present in a payload of any shape: the sections
    that [handleTrackingData] enters, [if (data.gaze)] and
    [if (data.emotion)]. *)
Definition present_sections (data : value) : nat :=
  match get data "gaze" with
  | Some g => if truthy g then 1 else 0
  | None => 0
  end
  + match get data "emotion" with
    | Some e => if truthy e then 1 else 0
    | None => 0
    end.

(** *** Notions used to state the properties *)

(** The labels of the recorded emotion entries, in recording order. *)
Definition labels (s : State) : list string :=
  map emotion (emotions (sessionData s)).

(** How often a label occurs. *)
Definition occurrences (l : string) (ls : list string) : nat :=
  count_occ string_dec ls l.

(** Position of the first occurrence of a label. *)
Fixpoint first_index (l : string) (ls : list string) : nat :=
  match ls with
  | [] => 0
  | k :: rest => if String.eqb l k then 0 else S (first_index l rest)
  end.

(** A label that is neither an array index nor a name inherited from
    [Object.prototype]. *)
Definition ordinary (l : string) : bool := is_named l && negb (inherited l).

Definition seen (l : string) (ls : list string) : bool :=
  existsb (String.eqb l) ls.

Definition differs (k l : string) : bool := negb (String.eqb l k).

(** The distinct labels in the order in which they are first seen. *)
Fixpoint first_seen (ls : list string) : list string :=
  match ls with
  | [] => []
  | k :: rest => k :: filter (differs k) (first_seen rest)
  end.

(** The counting object a list of ordinary labels leads to: one property
    per distinct label, created when the label is first seen. *)
Definition counts_of (ls : list string) : list (string * CountValue) :=
  map (fun k => (k, Count (occurrences k ls))) (first_seen ls).

(** The state in which the same socket is open. *)
Definition with_open_connection (s : State) : State :=
  set_wsConnection (Some OPEN) s.

(** What "the command fails with ChannelNotOpen" asks for at the least:
    nothing is written to the channel and the failure is surfaced. The
    commands return nothing and the log is the only place where the
    renderer reports anything, so a failure that is surfaced shows in the
    log: the log does not read as it does after the same command on an
    open connection. *)
Definition fails_ChannelNotOpen (command : State -> State) (s : State) : Prop :=
  sent (command s) = sent s
  /\ logContainer (command s) <> logContainer (command (with_open_connection s)).

(** The same payload with another confidence. *)
Definition with_confidence (c : option Q) (d : TrackingData) : TrackingData :=
  mkTrackingData (gaze d)
    (option_map (fun e => mkEmotionSection (label e) (emotion_scores e) c)
       (emotion_section d)).

(** The artifact behind an export, whichever way it went. *)
Definition exported (k : ExportSink) : ExportData :=
  match k with
  | ViaHostApi d => d
  | ViaDownloadLink d => d
  end.

(** A payload and the clock readings of its handling, as a parsed frame. *)
Definition framed (fe : TrackingData * Env) : Frame * Env :=
  (tracking_data_frame (fst fe), snd fe).

(** *** The event loop *)

(** The listener given to [window.api.onExportRequest]: the path chosen
    in the host's save dialog is written to the log. *)
Definition onExportRequest (path : string) (s : State) : State :=
  addLogEntry (WillBeSavedTo path) s.

(** The rejection handler of [getUserMedia] in [startVideo]. *)
Definition onCameraError (message : string) (s : State) : State :=
  addLogEntry (Text ("Camera access error: " ++ message)) s.

(** [initApp()]: listeners are registered, the socket is requested and
    two entries are logged. *)
Definition initApp (failure : option string) (s : State) : State :=
  let s := connectWebSocket failure s in
  let s := addLogEntry (Text "Emotion Eye Tracker initialized") s in
  addLogEntry (Text "Connecting to Python backend...") s.

(** The platform changes [readyState] of the socket, if there is one. *)
Definition readyStateChange (r : ReadyState) (s : State) : State :=
  match wsConnection s with
  | Some _ => set_wsConnection (Some r) s
  | None => s
  end.

(** Everything that can happen to the renderer once [initApp] has run:
    socket events, button clicks, the host's export request, a camera
    failure, and a change of the socket's ready state. *)
Inductive Event : Type :=
| SocketOpen
| SocketMessage (frame : Frame) (env : Env)
| SocketClose
| SocketError
| ReadyStateChange (r : ReadyState)
| ClickStart (now : Z) (getUserMedia : bool)
| ClickStop
| ClickCalibrate
| ClickExport (now_end now_summary : Z) (api : bool)
| ExportRequest (path : string)
| CameraError (message : string).

(** One callback, run to its end (or to its exception). *)
Definition step (s : State) (e : Event) : State :=
  match e with
  | SocketOpen => onopen s
  | SocketMessage frame env => final_state (onmessage frame env s)
  | SocketClose => onclose s
  | SocketError => onerror s
  | ReadyStateChange r => readyStateChange r s
  | ClickStart now getUserMedia => startTracking now getUserMedia s
  | ClickStop => stopTracking s
  | ClickCalibrate => calibrateGaze s
  | ClickExport now_end now_summary api => exportData now_end now_summary api s
  | ExportRequest path => onExportRequest path s
  | CameraError message => onCameraError message s
  end.

(** Callbacks run one after the other. *)
Definition run (s : State) (events : list Event) : State :=
  fold_left step events s.

(** The renderer once the page is loaded. *)
Definition booted (btns : Buttons) (failure : option string) : State :=
  initApp failure (initial_state btns).

(** How the state may differ after a computation: the control state
    (tracking flag, socket, buttons, channel, exports, start time) is the
    same, a log of at most a hundred entries is still one, and the two
    sample sequences have gained at most [g] gaze points and [e] emotion
    entries at their end. *)
Definition grown (g e : nat) (s s' : State) : Prop :=
  isTracking s' = isTracking s
  /\ (length (logContainer s) <= 100 -> length (logContainer s') <= 100)
  /\ wsConnection s' = wsConnection s
  /\ buttons s' = buttons s
  /\ sent s' = sent s
  /\ exports s' = exports s
  /\ startTime (sessionData s') = startTime (sessionData s)
  /\ (exists gs, gazePoints (sessionData s') = gazePoints (sessionData s) ++ gs
                 /\ length gs <= g)
  /\ (exists es, emotions (sessionData s') = emotions (sessionData s) ++ es
                 /\ length es <= e).

(** A computation that, however it ends, leaves a state [grown] from the
    one it started in. *)
Definition grows {A : Type} (g e : nat) (c : M A) : Prop :=
  forall s, grown g e s (final_state (c s)).

(** [v] is a command object [{ command: name }]. *)
Definition is_command (name : string) (v : value) : bool :=
  match v with
  | Obj [(k, Str n)] => String.eqb k "command" && String.eqb n name
  | _ => false
  end.

(** How many times the command [name] was written to the channel. *)
Definition commands_sent (name : string) (s : State) : nat :=
  length (filter (is_command name) (sent s)).

Definition is_number (v : value) : bool :=
  match v with
  | Number _ => true
  | _ => false
  end.

Definition is_str (v : value) : bool :=
  match v with
  | Str _ => true
  | _ => false
  end.

(** The numeric part of a count, 0 for a value that is not a number. *)
Definition count_number (v : CountValue) : nat :=
  match v with
  | Count n => n
  | NotNumeric => 0
  end.

Definition b2n (b : bool) : nat := if b then 1 else 0.

(** What holds of the commands written so far: a stop needs a start that
    came before it, and so does a calibrate. *)
Definition protocol_ok (s : State) : Prop :=
  commands_sent "stop_tracking" s + b2n (isTracking s)
  <= commands_sent "start_tracking" s
  /\ (commands_sent "start_tracking" s = 0 -> commands_sent "calibrate" s = 0).

(** What holds while tracking, and of a session that has samples. *)
Definition tracking_ok (s : State) : Prop :=
  (isTracking s = true ->
   stop_disabled (buttons s) = false
   /\ calibrate_disabled (buttons s) = false
   /\ wsConnection s <> None
   /\ startTime (sessionData s) <> None)
  /\ (stored_samples s <> 0 -> startTime (sessionData s) <> None).

(** Whether the event can change the recorded session in that state. *)
Definition may_change_session (e : Event) (s : State) : bool :=
  match e with
  | SocketMessage _ _ => isTracking s
  | ClickStart _ _ => connection_open s
  | _ => false
  end.

(** A property whose value is a string that is not numeric. *)
Definition not_numeric (kv : string * CountValue) : bool :=
  match snd kv with
  | NotNumeric => true
  | Count _ => false
  end.

End Renderer.

(* ------------------------------------------------------------------ *)
(** ** The worker supervisor: main.js *)

Module Supervisor.

(** The handle [spawn] returns. [pid] is [undefined] when the executable
    could not be launched. *)
Record ChildProcess : Type := mkChildProcess {
  pid : option Z;
  executable : list string
}.

(** What the supervisor does to the outside world. [SpawnTaskkill pid]
    is [spawn('taskkill', ['/pid', pid, '/f', '/t'])] and [Kill p] is
    [p.kill()]. *)
Inductive Effect : Type :=
| LogStarting (path : list string)
| LogFailedToStart
| LogExited (code : option Z)
| LogStopping
| SpawnBackend (path : list string)
| SpawnTaskkill (target : option Z)
| Kill (p : ChildProcess).

(** The module-level [pythonProcess] and the trace of effects. *)
Record State : Type := mkState {
  pythonProcess : option ChildProcess;
  effects : list Effect
}.

Definition initial_state : State :=
  {| pythonProcess := None; effects := [] |}.

Definition emit (e : Effect) (s : State) : State :=
  mkState (pythonProcess s) (effects s ++ [e]).

Definition set_pythonProcess (p : option ChildProcess) (s : State) : State :=
  mkState p (effects s).

(** [pythonExecutablePath], relative to [__dirname]. *)
Definition pythonExecutablePath (platform : string) : list string :=
  if String.eqb platform "win32" then
    ["python_dist"; "emotion_tracker_backend.exe"]
  else if String.eqb platform "darwin" then
    ["python_dist"; "emotion_tracker_backend"; "emotion_tracker_backend"]
  else
    ["python_dist"; "emotion_tracker_backend"].

(** [startPythonBackend()]; [spawned] is what [spawn] did: [None] when it
    threw, otherwise the pid of the child it returned. *)
Definition startPythonBackend (platform : string) (spawned : option (option Z))
  (s : State) : State :=
  let path := pythonExecutablePath platform in
  let s := emit (LogStarting path) s in
  let s := emit (SpawnBackend path) s in
  match spawned with
  | Some child_pid => set_pythonProcess (Some (mkChildProcess child_pid path)) s
  | None => emit LogFailedToStart s
  end.

(** The ['close'] listener registered on the child. *)
Definition on_close (code : option Z) (s : State) : State :=
  set_pythonProcess None (emit (LogExited code) s).

(** [stopPythonBackend()] *)
Definition stopPythonBackend (platform : string) (s : State) : State :=
  match pythonProcess s with
  | Some p =>
      let s := emit LogStopping s in
      if String.eqb platform "win32" then
        emit (SpawnTaskkill (pid p)) s
      else
        emit (Kill p) s
  | None => s
  end.

Definition is_termination (e : Effect) : bool :=
  match e with
  | SpawnTaskkill _ | Kill _ => true
  | _ => false
  end.

(** How many termination attempts (taskkill or kill) a trace holds. *)
Definition termination_attempts (s : State) : nat :=
  length (filter is_termination (effects s)).

(** 1 while a handle is held, 0 otherwise. *)
Definition held (s : State) : nat :=
  match pythonProcess s with
  | Some _ => 1
  | None => 0
  end.

(** *** The application's lifecycle *)

(** [createWindow()], as far as the worker is concerned: every window
    that is created starts the backend. *)
Definition createWindow (platform : string) (spawned : option (option Z))
  (s : State) : State :=
  startPythonBackend platform spawned s.

(** The ['window-all-closed'] listener: the backend is stopped and, except
    on macOS, the application is asked to quit. The boolean tells whether
    [app.quit()] was called. *)
Definition on_window_all_closed (platform : string) (s : State) : State * bool :=
  (stopPythonBackend platform s, negb (String.eqb platform "darwin")).

(** The ['will-quit'] listener. *)
Definition on_will_quit (platform : string) (s : State) : State :=
  stopPythonBackend platform s.

(** What happens to the main process, as far as the worker is concerned. *)
Inductive Event : Type :=
| CreateWindow (spawned : option (option Z))
| WindowAllClosed
| WillQuit
| ChildClosed (code : option Z).

Definition step (platform : string) (s : State) (e : Event) : State :=
  match e with
  | CreateWindow spawned => createWindow platform spawned s
  | WindowAllClosed => fst (on_window_all_closed platform s)
  | WillQuit => on_will_quit platform s
  | ChildClosed code => on_close code s
  end.

Definition run (platform : string) (s : State) (events : list Event) : State :=
  fold_left (step platform) events s.

(** The pid a termination attempt is aimed at. *)
Definition target (e : Effect) : list (option Z) :=
  match e with
  | SpawnTaskkill t => [t]
  | Kill p => [pid p]
  | _ => []
  end.

Definition targets (s : State) : list (option Z) :=
  flat_map target (effects s).

(** The pid of the handle that is held, if one is. *)
Definition held_pid (s : State) : list (option Z) :=
  match pythonProcess s with
  | Some p => [pid p]
  | None => []
  end.

(** The pid of the child that [spawn] returned, if it returned one. The
    pid is [None] for a child whose executable could not be launched: such
    a child is returned, and held, like any other. *)
Definition spawned_pid (e : Event) : list (option Z) :=
  match e with
  | CreateWindow (Some p) => [p]
  | _ => []
  end.

Definition is_stop_request (e : Event) : bool :=
  match e with
  | WindowAllClosed | WillQuit => true
  | _ => false
  end.

(** The termination strategy an effect belongs to: [taskkill] on win32,
    [kill] elsewhere. *)
Definition follows_platform (platform : string) (e : Effect) : Prop :=
  match e with
  | SpawnTaskkill _ => String.eqb platform "win32" = true
  | Kill _ => String.eqb platform "win32" = false
  | _ => True
  end.

End Supervisor.

(* ------------------------------------------------------------------ *)
(** ** The packaging script: updateBuilderConfig of package.js *)

Module Packager.

Import Js.

(** A result or the exception that was raised. *)
Inductive Result (A : Type) : Type :=
| Ok (a : A)
| Throws (e : Exn).
Arguments Ok {A} a.
Arguments Throws {A} e.

(** [o[k] = v] on the own properties of an object: an existing property
    keeps its place, a new one comes last. *)
Fixpoint set_prop (k : string) (v : value) (props : list (string * value))
  : list (string * value) :=
  match props with
  | [] => [(k, v)]
  | (k', v') :: rest =>
      if String.eqb k k' then (k', v) :: rest
      else (k', v') :: set_prop k v rest
  end.

(** [o.k] on the own properties of an object. *)
Definition prop_of (props : list (string * value)) (k : string) : value :=
  match assoc k props with
  | Some v => v
  | None => Undefined
  end.

(** [pythonResource] *)
Definition pythonResource : value :=
  Obj [("from", Str "python_dist/"); ("to", Str "python_dist")].

(** The callback given to [some]:
    [typeof resource === 'object' && resource.from === pythonResource.from].
    [typeof null] is ['object'] too, and reading [null.from] throws. *)
Definition is_pythonResource (resource : value) : Result bool :=
  match resource with
  | Null => Throws TypeError
  | Obj props => Ok (is_string (prop_of props "from") "python_dist/")
  | _ => Ok false
  end.

(** [Array.prototype.some] with that callback: it stops at the first
    element that satisfies it. *)
Fixpoint some (items : list value) : Result bool :=
  match items with
  | [] => Ok false
  | resource :: rest =>
      match is_pythonResource resource with
      | Throws e => Throws e
      | Ok true => Ok true
      | Ok false => some rest
      end
  end.

(** What [packageJson.build] is, as [JSON.stringify] will see it, once
    the resource has been ensured. [build] is the truthy value of
    [packageJson.build || {}]. On a primitive the assignment of
    [extraResources] is ignored and the call of [some] on [undefined]
    throws. On an array [extraResources] becomes a named property, which
    is not serialised. *)
Definition ensure_resource (build : value) : Result value :=
  match build with
  | Obj bprops =>
      match Js.or (prop_of bprops "extraResources") (Arr []) with
      | Arr items =>
          match some items with
          | Throws e => Throws e
          | Ok resourceExists =>
              let items' :=
                if resourceExists then items else items ++ [pythonResource] in
              Ok (Obj (set_prop "extraResources" (Arr items') bprops))
          end
      | _ => Throws TypeError
      end
  | Arr bitems => Ok (Arr bitems)
  | _ => Throws TypeError
  end.

(** What [packageJson.scripts] is, as [JSON.stringify] will see it, once
    ['build-full'] has been assigned. On a primitive the assignment is
    ignored; on an array it adds a named property, which is not
    serialised. *)
Definition add_script (scripts : value) : value :=
  match scripts with
  | Obj sprops => Obj (set_prop "build-full" (Str "node package.js") sprops)
  | _ => scripts
  end.

(** [updateBuilderConfig()], from the parsed [package.json] to the value
    that is written back. Nothing is written when it throws. *)
Definition updateBuilderConfig (packageJson : value) : Result value :=
  match packageJson with
  | Undefined | Null => Throws TypeError
  | Bool _ | Number _ | Str _ => Throws TypeError
  | Arr items => Ok (Arr items)
  | Obj props =>
      match ensure_resource (Js.or (prop_of props "build") (Obj [])) with
      | Throws e => Throws e
      | Ok build =>
          let props := set_prop "build" build props in
          let scripts := add_script (Js.or (prop_of props "scripts") (Obj [])) in
          Ok (Obj (set_prop "scripts" scripts props))
      end
  end.


End Packager.

(* ------------------------------------------------------------------ *)
(** ** Scenarios *)

Module Scenarios.

Import Js Renderer.

Definition all_disabled : Buttons := mkButtons true true true true.

(** Page loaded, socket open. *)
Definition connected_state : State :=
  onopen (set_wsConnection (Some OPEN)
            (connectWebSocket None (initial_state all_disabled))).

(** A session started at time 0. *)
Definition tracking_state : State := startTracking 0 true connected_state.

(** The same session once the closing handshake has begun. *)
Definition closing_state : State := set_wsConnection (Some CLOSING) tracking_state.

Definition quiet (t : Z) : Env := mkEnv t t false.

(** The frame
    [{type: 'tracking_data', data: {gaze: {GazeX: 0.5, GazeY: 0.4}}}]. *)
Definition gaze_only : TrackingData :=
  mkTrackingData (Some (mkGazeSection (1 # 2)%Q (2 # 5)%Q)) None.

(** A frame with an emotion section that has a confidence. *)
Definition happy_87 : TrackingData :=
  mkTrackingData None
    (Some (mkEmotionSection "happy" [("happy", (9 # 10)%Q); ("sad", (1 # 10)%Q)]
             (Some (87 # 1)%Q))).

(** The payload
    [{gaze: {GazeX: '0.5', GazeY: 0.4},
      emotion: {emotion: 'happy', emotion_scores: {happy: 0.9, sad: 0.1},
                confidence: 87}}]:
    both sections are present, [GazeX] is a string. *)
Definition gaze_x_as_text : value :=
  Obj [("gaze", Obj [("GazeX", Str "0.5"); ("GazeY", Number (2 # 5)%Q)]);
       ("emotion",
        Obj [("emotion", Str "happy");
             ("emotion_scores",
              Obj [("happy", Number (9 # 10)%Q); ("sad", Number (1 # 10)%Q)]);
             ("confidence", Number (87 # 1)%Q)])].

(** A session with one gaze point and no emotion, stopped. *)
Definition gaze_only_session : State :=
  stopTracking
    (final_state (onmessage (tracking_data_frame gaze_only) (quiet 10) tracking_state)).

(** A session whose two emotion entries are labelled "2" and then "1". *)
Definition two_one_session : State :=
  final_state
    (onmessage
       (tracking_data_frame (mkTrackingData None (Some (mkEmotionSection "1" [] None))))
       (quiet 11)
       (final_state
          (onmessage
             (tracking_data_frame (mkTrackingData None (Some (mkEmotionSection "2" [] None))))
             (quiet 10) tracking_state))).

(** A session with three "sad" and three "happy" entries, "sad" first. *)
Definition happy_sad_session : State :=
  set_sessionData
    (mkSessionData (Some 0%Z)
       (map (fun l => mkEmotionEntry l [] 5%Z)
          ["sad"; "happy"; "happy"; "sad"; "happy"; "sad"])
       [])
    tracking_state.

(** A session whose labels are names of [Object.prototype] members. *)
Definition constructor_session : State :=
  set_sessionData
    (mkSessionData (Some 0%Z)
       (map (fun l => mkEmotionEntry l [] 5%Z) ["constructor"; "toString"; "constructor"])
       [])
    tracking_state.


End Scenarios.

(* ------------------------------------------------------------------ *)
(** ** Properties of the renderer *)

Module RendererProps.

Import Js Renderer Scenarios.

(** *** Small facts about state updates *)

Lemma connection_open_addLogEntry (e : LogEntry) (s : State) :
  connection_open (addLogEntry e s) = connection_open s.
Proof. reflexivity. Qed.

(** A value that can be read from can be read under any name. *)
Lemma get_total (v : value) (k k' : string) (r : value) :
  get v k = Some r -> exists r', get v k' = Some r'.
Proof.
  destruct v; cbn [get]; intros H; try discriminate H; eauto.
Qed.

Lemma handleTrackingData_not_tracking (data : value) (env : Env) (s : State) :
  isTracking s = false -> handleTrackingData data env s = Returned tt s.
Proof.
  intros Hidle. unfold handleTrackingData, bind, read.
  rewrite Hidle. reflexivity.
Qed.

(** *** The stop command outside Tracking *)

(** C10. When [state.isTracking] is false, [stopTracking] returns at its
    first line: the state it leaves is the state it found, so no
    [stop_tracking] message is written to the channel, the session data
    is unchanged and no button changes. *)
Theorem stopTracking_outside_tracking_is_noop :
  forall s : State,
    isTracking s = false ->
    stopTracking s = s
    /\ sent (stopTracking s) = sent s
    /\ sessionData (stopTracking s) = sessionData s
    /\ buttons (stopTracking s) = buttons s
    /\ logContainer (stopTracking s) = logContainer s.
Proof.
  intros s Hidle.
  assert (Heq : stopTracking s = s).
  { unfold stopTracking. rewrite Hidle. reflexivity. }
  rewrite Heq. repeat split.
Qed.

Lemma stopTracking_outside_tracking_is_noop_witness :
  isTracking connected_state = false
  /\ stopTracking connected_state = connected_state.
Proof.
  split; [reflexivity |].
  apply (stopTracking_outside_tracking_is_noop connected_state).
  reflexivity.
Defined.

(** *** Tracking frames outside Tracking *)

(** C6. When [state.isTracking] is false, a [tracking_data] frame, whatever
    its payload, is handled by returning at the first line of
    [handleTrackingData]: the handler returns normally and leaves the state,
    and with it both sample sequences, as it found them. *)
Theorem tracking_frame_outside_tracking_records_nothing :
  forall (s : State) (message : value) (env : Env),
    isTracking s = false ->
    get message "type" = Some (Str "tracking_data") ->
    onmessage (Json message) env s = Returned tt s
    /\ gazePoints (sessionData (final_state (onmessage (Json message) env s)))
       = gazePoints (sessionData s)
    /\ emotions (sessionData (final_state (onmessage (Json message) env s)))
       = emotions (sessionData s).
Proof.
  intros s message env Hidle Htype.
  assert (Hrun : onmessage (Json message) env s = Returned tt s).
  { unfold onmessage, bind, JSON_parse, ret, prop.
    rewrite Htype. cbn [is_string].
    change (String.eqb "tracking_data" "tracking_data") with true. cbv iota.
    destruct (get_total message "type" "data" (Str "tracking_data") Htype)
      as [data Hdata].
    rewrite Hdata. apply handleTrackingData_not_tracking. exact Hidle. }
  rewrite Hrun. repeat split.
Qed.

Lemma tracking_frame_outside_tracking_records_nothing_witness :
  onmessage (tracking_data_frame gaze_only) (quiet 10) connected_state
  = Returned tt connected_state.
Proof.
  apply (tracking_frame_outside_tracking_records_nothing
           connected_state
           (Obj [("type", Str "tracking_data"); ("data", data_value gaze_only)])
           (quiet 10)).
  - reflexivity.
  - reflexivity.
Defined.

(** *** Frames that are not recognised *)

(** C3, as stated, fails on a frame that is not JSON: [JSON.parse] throws
    inside [onmessage], which has no handler for it. *)
Lemma frame_that_is_not_json_raises :
  onmessage NotJson (quiet 10) tracking_state = Threw SyntaxError tracking_state
  /\ ~ (exists s', onmessage NotJson (quiet 10) tracking_state = Returned tt s').
Proof.
  split.
  - reflexivity.
  - intros [s' H]. discriminate H.
Qed.

(** C3, amended. A frame that parses to a value other than [null] and whose
    [type] is neither ['tracking_data'] nor ['command_response'] is dropped:
    the handler returns normally and the state is untouched. A frame that
    is not JSON makes the handler throw a SyntaxError, and one that parses
    to [null] a TypeError; in both cases the state, hence the recorder and
    the connection, is untouched as well. *)
Theorem unrecognised_frame_is_dropped :
  forall (s : State) (env : Env) (message type : value),
    get message "type" = Some type ->
    is_string type "tracking_data" = false ->
    is_string type "command_response" = false ->
    onmessage (Json message) env s = Returned tt s
    /\ onmessage NotJson env s = Threw SyntaxError s
    /\ onmessage (Json Null) env s = Threw TypeError s
    /\ (forall f, f = Json message \/ f = NotJson \/ f = Json Null ->
          sessionData (final_state (onmessage f env s)) = sessionData s
          /\ wsConnection (final_state (onmessage f env s)) = wsConnection s).
Proof.
  intros s env message type Htype Hnot_data Hnot_response.
  assert (Hdrop : onmessage (Json message) env s = Returned tt s).
  { unfold onmessage, bind, JSON_parse, ret, prop.
    rewrite Htype. cbv beta iota delta [ret].
    rewrite Hnot_data, Hnot_response. reflexivity. }
  repeat split; try reflexivity; try exact Hdrop.
  - destruct H as [-> | [-> | ->]]; [rewrite Hdrop | |]; reflexivity.
  - destruct H as [-> | [-> | ->]]; [rewrite Hdrop | |]; reflexivity.
Qed.

Lemma unrecognised_frame_is_dropped_witness :
  onmessage (Json (Obj [("type", Str "heartbeat")])) (quiet 10) tracking_state
  = Returned tt tracking_state.
Proof.
  apply (unrecognised_frame_is_dropped tracking_state (quiet 10)
           (Obj [("type", Str "heartbeat")]) (Str "heartbeat"));
    reflexivity.
Defined.

(** *** Commands while the connection is not open *)

(** C7, as stated, fails for the calibrate and the stop command: while
    tracking with a connection that is no longer open, [calibrateGaze]
    and [stopTracking] skip the send and surface no failure. The only
    thing [calibrateGaze] does is to log that the calibration starts, and
    after either command the log reads exactly as it does when the
    command is carried out on an open connection. *)
Lemma skipped_send_is_not_reported :
  connection_open closing_state = false
  /\ with_open_connection closing_state = tracking_state
  /\ calibrateGaze closing_state
     = addLogEntry (Text "Starting calibration process...") closing_state
  /\ logContainer (calibrateGaze closing_state)
     = logContainer (calibrateGaze tracking_state)
  /\ logContainer (stopTracking closing_state)
     = logContainer (stopTracking tracking_state)
  /\ ~ fails_ChannelNotOpen calibrateGaze closing_state
  /\ ~ fails_ChannelNotOpen stopTracking closing_state.
Proof.
  repeat split; intros [_ Hlog]; apply Hlog; reflexivity.
Qed.

Lemma startTracking_not_open (now : Z) (media : bool) (s : State) :
  connection_open s = false ->
  startTracking now media s
  = addLogEntry (Text "Cannot start: No connection to server.") s.
Proof.
  intros Hclosed. unfold startTracking. rewrite Hclosed. reflexivity.
Qed.

Lemma stopTracking_sent (s : State) :
  sent (stopTracking s) =
  if isTracking s && connection_open s
  then sent s ++ [Obj [("command", Str "stop_tracking")]]
  else sent s.
Proof.
  unfold stopTracking.
  destruct (isTracking s); cbn [negb andb]; [| reflexivity].
  rewrite connection_open_addLogEntry.
  destruct (connection_open s); reflexivity.
Qed.

Lemma calibrateGaze_sent (s : State) :
  sent (calibrateGaze s) =
  if isTracking s && connection_open s
  then sent s ++ [Obj [("command", Str "calibrate")]]
  else sent s.
Proof.
  unfold calibrateGaze.
  destruct (isTracking s); cbn [negb andb]; [| reflexivity].
  rewrite connection_open_addLogEntry.
  destruct (connection_open s); reflexivity.
Qed.

(** The entry that [addLogEntry] adds is the last one of the log. *)
Lemma last_addLogEntry (e d : LogEntry) (s : State) :
  last (logContainer (addLogEntry e s)) d = e.
Proof.
  unfold addLogEntry. cbn [logContainer set_logContainer].
  rewrite length_app, skipn_app. cbn [length].
  replace (length (logContainer s) + 1 - 100 - length (logContainer s)) with 0 by lia.
  cbn [skipn]. apply last_last.
Qed.

(** On an open connection [startTracking] ends with a log entry other
    than the refusal. *)
Lemma startTracking_open_log (now : Z) (media : bool) (s : State) :
  connection_open s = true ->
  last (logContainer (startTracking now media s)) (Text "")
  <> Text "Cannot start: No connection to server.".
Proof.
  intros Hopen. unfold startTracking. rewrite Hopen. cbn [negb]. cbv zeta.
  destruct media; unfold startVideo.
  - change (last (logContainer (addLogEntry (Text "Starting tracking session...") s))
              (Text "")
            <> Text "Cannot start: No connection to server.").
    rewrite last_addLogEntry. discriminate.
  - rewrite last_addLogEntry. discriminate.
Qed.

Lemma stopTracking_not_open (s : State) :
  connection_open s = false ->
  stopTracking s
  = if isTracking s then
      addLogEntry (Text "Session stopped. Data can now be exported.")
        (enableButton exportBtn
           (disableButton calibrateBtn
              (disableButton stopBtn
                 (enableButton startBtn
                    (set_isTracking false
                       (addLogEntry (Text "Stopping tracking session...") s))))))
    else s.
Proof.
  intros Hclosed. unfold stopTracking.
  destruct (isTracking s); cbn [negb]; [| reflexivity].
  cbv zeta. rewrite connection_open_addLogEntry, Hclosed. reflexivity.
Qed.

Lemma calibrateGaze_not_open (s : State) :
  connection_open s = false ->
  calibrateGaze s
  = if isTracking s then addLogEntry (Text "Starting calibration process...") s
    else s.
Proof.
  intros Hclosed. unfold calibrateGaze.
  destruct (isTracking s); cbn [negb]; [| reflexivity].
  cbv zeta. rewrite connection_open_addLogEntry, Hclosed. reflexivity.
Qed.

(** The log after a stop or a calibrate does not depend on the socket. *)
Lemma command_log_ignores_connection (w : option ReadyState) (s : State) :
  logContainer (stopTracking (set_wsConnection w s)) = logContainer (stopTracking s)
  /\ logContainer (calibrateGaze (set_wsConnection w s))
     = logContainer (calibrateGaze s).
Proof.
  destruct s as [[] ws current gd d btns log out exps];
    destruct w as [[] |], ws as [[] |]; split; reflexivity.
Qed.

(** C7, amended. While the connection is not open, none of the three
    commands writes to the channel. [startTracking] is refused and says
    so: it adds the log entry that no connection exists and changes
    nothing else, and that is not how the log reads after a start on an
    open connection. [stopTracking] and [calibrateGaze] skip the send
    without reporting a failure: they do exactly what they do on an open
    connection except for the send. A stop issued while tracking logs its
    two entries and completes the transition out of Tracking; a calibrate
    issued while tracking only logs that the calibration starts; issued
    outside Tracking both do nothing. After either the log reads as it
    does after the same command on an open connection. *)
Theorem no_command_is_sent_without_connection :
  forall (s : State) (now : Z) (media : bool),
    connection_open s = false ->
    sent (startTracking now media s) = sent s
    /\ sent (stopTracking s) = sent s
    /\ sent (calibrateGaze s) = sent s
    /\ startTracking now media s
       = addLogEntry (Text "Cannot start: No connection to server.") s
    /\ fails_ChannelNotOpen (startTracking now media) s
    /\ isTracking (stopTracking s) = false
    /\ stopTracking s
       = (if isTracking s then
            addLogEntry (Text "Session stopped. Data can now be exported.")
              (enableButton exportBtn
                 (disableButton calibrateBtn
                    (disableButton stopBtn
                       (enableButton startBtn
                          (set_isTracking false
                             (addLogEntry (Text "Stopping tracking session...") s))))))
          else s)
    /\ calibrateGaze s
       = (if isTracking s
          then addLogEntry (Text "Starting calibration process...") s
          else s)
    /\ logContainer (stopTracking s)
       = logContainer (stopTracking (with_open_connection s))
    /\ logContainer (calibrateGaze s)
       = logContainer (calibrateGaze (with_open_connection s)).
Proof.
  intros s now media Hclosed.
  assert (Hstart : startTracking now media s
                   = addLogEntry (Text "Cannot start: No connection to server.") s)
    by exact (startTracking_not_open now media s Hclosed).
  split; [rewrite Hstart; reflexivity |].
  split; [rewrite stopTracking_sent, Hclosed, andb_false_r; reflexivity |].
  split; [rewrite calibrateGaze_sent, Hclosed, andb_false_r; reflexivity |].
  split; [exact Hstart |].
  split.
  { split; [rewrite Hstart; reflexivity |].
    intros Hlog.
    apply (startTracking_open_log now media (with_open_connection s));
      [reflexivity |].
    rewrite <- Hlog, Hstart. apply last_addLogEntry. }
  split.
  { unfold stopTracking. destruct (isTracking s) eqn:Ht; [reflexivity | exact Ht]. }
  split; [exact (stopTracking_not_open s Hclosed) |].
  split; [exact (calibrateGaze_not_open s Hclosed) |].
  unfold with_open_connection.
  destruct (command_log_ignores_connection (Some OPEN) s) as [Hstop Hcal].
  split; symmetry; assumption.
Qed.

Lemma no_command_is_sent_without_connection_witness :
  connection_open closing_state = false
  /\ sent (stopTracking closing_state) = sent closing_state.
Proof.
  split; [reflexivity |].
  apply (no_command_is_sent_without_connection closing_state 30%Z true).
  reflexivity.
Defined.

(** *** Channel close and channel error *)

(** C9, as stated, fails for the error event: [onerror] only writes to the
    log, so a controller that was tracking is still tracking and its stop
    button is still enabled. *)
Lemma error_event_alone_keeps_tracking :
  isTracking (onerror tracking_state) = true
  /\ stop_disabled (buttons (onerror tracking_state)) = false.
Proof. split; reflexivity. Qed.

(** C9, amended. From every state, the close event leaves the controller
    with tracking off and the start, stop and calibrate buttons disabled,
    while the session data and the export button are untouched, so that an
    export after the close produces what it would have produced before.
    The error event changes nothing but the log; the same holds for the
    close event that follows it. *)
Theorem close_event_returns_to_idle_and_keeps_session :
  forall (s : State) (now_end now_summary : Z) (api : bool),
    isTracking (onclose s) = false
    /\ start_disabled (buttons (onclose s)) = true
    /\ stop_disabled (buttons (onclose s)) = true
    /\ calibrate_disabled (buttons (onclose s)) = true
    /\ export_disabled (buttons (onclose s)) = export_disabled (buttons s)
    /\ sessionData (onclose s) = sessionData s
    /\ exports (exportData now_end now_summary api (onclose s))
       = exports (exportData now_end now_summary api s)
    /\ onerror s
       = addLogEntry
           (Text "WebSocket error: Please make sure the Python server is running.") s
    /\ isTracking (onclose (onerror s)) = false
    /\ buttons (onclose (onerror s)) = buttons (onclose s)
    /\ sessionData (onclose (onerror s)) = sessionData s.
Proof.
  intros s now_end now_summary api.
  repeat split.
  unfold exportData, generateSummary. cbn [sessionData onclose set_isTracking
    disableButton set_buttons addLogEntry set_logContainer].
  destruct ((length (emotions (sessionData s)) =? 0)
            && (length (gazePoints (sessionData s)) =? 0))%nat;
    [reflexivity |].
  destruct api; reflexivity.
Qed.

(** *** Recording while Tracking *)

Lemma bind_to_string {B : Type} (v : value) (k : unit -> M B) (s : State) :
  converts v = true -> bind (to_string v) k s = k tt s.
Proof.
  intros Hv. unfold bind, to_string. rewrite Hv. reflexivity.
Qed.

Lemma converts_confidence (c : option Q) :
  converts
    (Js.or match c with Some q => Number q | None => Undefined end (Number 0%Q))
  = true.
Proof.
  destruct c as [q |]; [| reflexivity].
  unfold Js.or. destruct (truthy (Number q)); reflexivity.
Qed.

Lemma converts_scores (scs : list (string * Q)) :
  forallb (fun kv => negb (has_bar (fst kv)) || converts (snd kv))
    (score_props scs) = true.
Proof.
  induction scs as [| [k q] scs IH]; [reflexivity |].
  cbn [score_props map forallb fst snd converts]. rewrite orb_true_r.
  exact IH.
Qed.

Lemma bind_updateEmotionBars_scores {B : Type} (scs : list (string * Q))
  (k : unit -> M B) (s : State) :
  bind (updateEmotionBars (Obj (score_props scs))) k s = k tt s.
Proof.
  unfold bind, updateEmotionBars. cbn [spread].
  rewrite converts_scores. reflexivity.
Qed.

(** What one well-formed tracking frame does to a tracking controller. *)
Lemma onmessage_tracking_frame (s : State) (d : TrackingData) (env : Env) :
  isTracking s = true ->
  exists s',
    onmessage (tracking_data_frame d) env s = Returned tt s'
    /\ isTracking s' = true
    /\ gazePoints (sessionData s') = gazePoints (sessionData s) ++ gaze_sample (d, env)
    /\ emotions (sessionData s') = emotions (sessionData s) ++ emotion_sample (d, env)
    /\ startTime (sessionData s') = startTime (sessionData s)
    /\ wsConnection s' = wsConnection s
    /\ sent s' = sent s
    /\ buttons s' = buttons s.
Proof.
  intros Htracking.
  destruct s as [tracking ws current gd [start es gs] btns log out exps].
  cbn in Htracking. subst tracking.
  destruct d as [[[gx gy] |] [[lbl scs c] |]];
    destruct env as [tg te [|]];
    try (pose proof (converts_confidence c) as Hc; destruct c as [q |]);
    eexists;
    (split;
     [ cbn -[to_string updateEmotionBars Js.or score_props];
       try (rewrite (bind_to_string _ _ _ Hc), bind_updateEmotionBars_scores);
       reflexivity
     | ]);
    cbn -[Js.or score_props]; rewrite ?app_nil_r; repeat split.
Qed.

Lemma deliver_all_cons (s : State) (f : Frame) (env : Env) (rest : list (Frame * Env)) :
  deliver_all s ((f, env) :: rest)
  = (fst (deliver_all (final_state (onmessage f env s)) rest),
     match raised (onmessage f env s) with
     | Some e => e :: snd (deliver_all (final_state (onmessage f env s)) rest)
     | None => snd (deliver_all (final_state (onmessage f env s)) rest)
     end).
Proof. reflexivity. Qed.

Lemma deliver_all_tracking (fs : list (TrackingData * Env)) :
  forall s : State,
    isTracking s = true ->
    let r := deliver_all s (map framed fs) in
    snd r = []
    /\ isTracking (fst r) = true
    /\ gazePoints (sessionData (fst r))
       = gazePoints (sessionData s) ++ flat_map gaze_sample fs
    /\ emotions (sessionData (fst r))
       = emotions (sessionData s) ++ flat_map emotion_sample fs.
Proof.
  induction fs as [| [d env] fs IH]; intros s Htracking.
  - cbn. rewrite !app_nil_r. auto.
  - destruct (onmessage_tracking_frame s d env Htracking)
      as (s' & Hrun & Htracking' & Hgaze & Hemotions & _).
    specialize (IH s' Htracking'). cbv zeta in IH.
    destruct IH as (Hnone & Hstill & Hg & He).
    cbv zeta.
    change (map framed ((d, env) :: fs))
      with ((tracking_data_frame d, env) :: map framed fs).
    rewrite deliver_all_cons, Hrun.
    cbn [final_state raised fst snd flat_map].
    rewrite Hg, He, Hgaze, Hemotions, <- !app_assoc. auto.
Qed.

Lemma length_gaze_sample (fe : TrackingData * Env) :
  length (gaze_sample fe) + length (emotion_sample fe) = sections (fst fe).
Proof.
  unfold gaze_sample, emotion_sample, sections.
  destruct (gaze (fst fe)), (emotion_section (fst fe)); reflexivity.
Qed.

Lemma length_samples (fs : list (TrackingData * Env)) :
  length (flat_map gaze_sample fs) + length (flat_map emotion_sample fs)
  = list_sum (map (fun fe => sections (fst fe)) fs).
Proof.
  induction fs as [| fe fs IH]; [reflexivity |].
  change (list_sum (map (fun fe0 => sections (fst fe0)) (fe :: fs)))
    with (sections (fst fe) + list_sum (map (fun fe0 => sections (fst fe0)) fs)).
  cbn [flat_map]. rewrite !length_app.
  rewrite <- IH, <- (length_gaze_sample fe). lia.
Qed.

(** C5, as stated, fails for a frame that is not in the wire format. The
    frame carries a gaze section and an emotion section, so two sections
    are present, but [GazeX] is a string: [toFixed] raises a TypeError,
    the handler ends there and neither a gaze point nor an emotion entry
    is stored. *)
Lemma present_sections_of_wrong_shape_are_not_recorded :
  let frame := Json (Obj [("type", Str "tracking_data"); ("data", gaze_x_as_text)]) in
  let o := onmessage frame (quiet 10) tracking_state in
  isTracking tracking_state = true
  /\ present_sections gaze_x_as_text = 2
  /\ raised o = Some TypeError
  /\ stored_samples (final_state o) = stored_samples tracking_state
  /\ stored_samples (final_state o)
     <> stored_samples tracking_state + present_sections gaze_x_as_text.
Proof.
  cbv zeta. split; [reflexivity |]. split; [reflexivity |].
  split; [reflexivity |]. split; [reflexivity |]. discriminate.
Qed.

(** C5, amended. Starting from a tracking controller, after a sequence of
    [tracking_data] frames in the wire format (a gaze section with two
    numbers, an emotion section with a string label, numeric scores and a
    numeric confidence or none) has been handled in receipt
    order, every handler has returned normally, the gaze sequence is the
    former one followed by one point per frame with a gaze section, the
    emotion sequence is the former one followed by one entry per frame
    with an emotion section, both in receipt order, and the number of
    stored samples has grown by exactly the number of sections present. *)
Theorem recorded_samples_match_present_sections :
  forall (s : State) (fs : list (TrackingData * Env)),
    isTracking s = true ->
    let r := deliver_all s (map framed fs) in
    snd r = []
    /\ gazePoints (sessionData (fst r))
       = gazePoints (sessionData s) ++ flat_map gaze_sample fs
    /\ emotions (sessionData (fst r))
       = emotions (sessionData s) ++ flat_map emotion_sample fs
    /\ stored_samples (fst r)
       = stored_samples s + list_sum (map (fun fe => sections (fst fe)) fs).
Proof.
  intros s fs Htracking.
  destruct (deliver_all_tracking fs s Htracking) as (Hnone & _ & Hg & He).
  cbv zeta. repeat split; try assumption.
  unfold stored_samples. rewrite Hg, He, !length_app, <- length_samples. lia.
Qed.

Lemma recorded_samples_match_present_sections_witness :
  isTracking tracking_state = true
  /\ stored_samples
       (fst (deliver_all tracking_state
               (map framed [(gaze_only, quiet 10); (happy_87, quiet 11)])))
     = 2.
Proof.
  split; [reflexivity |].
  apply (recorded_samples_match_present_sections tracking_state
           [(gaze_only, quiet 10); (happy_87, quiet 11)]).
  reflexivity.
Defined.

(** *** What an emotion entry holds *)

Lemma sessionData_ext (a b : SessionData) :
  startTime a = startTime b ->
  emotions a = emotions b ->
  gazePoints a = gazePoints b ->
  a = b.
Proof.
  destruct a, b. cbn. intros -> -> ->. reflexivity.
Qed.

Lemma samples_ignore_confidence (c : option Q) (d : TrackingData) (env : Env) :
  gaze_sample (with_confidence c d, env) = gaze_sample (d, env)
  /\ emotion_sample (with_confidence c d, env) = emotion_sample (d, env).
Proof.
  unfold gaze_sample, emotion_sample, with_confidence. cbn.
  destruct (emotion_section d); split; reflexivity.
Qed.

(** A sequence that returns went through both of its parts. *)
Lemma bind_returned {A B : Type} (c : M A) (k : A -> M B) (b : B) (s t : State) :
  bind c k s = Returned b t ->
  exists a s1, c s = Returned a s1 /\ k a s1 = Returned b t.
Proof.
  unfold bind. destruct (c s) as [a s1 | e s1]; [| discriminate].
  intros H. exists a, s1. split; [reflexivity | exact H].
Qed.

Lemma prop_returned (v r : value) (k : string) (s t : State) :
  prop v k s = Returned r t -> get v k = Some r /\ t = s.
Proof.
  unfold prop. destruct (get v k) as [x |]; [| discriminate].
  unfold ret. intros H. injection H as -> ->. split; reflexivity.
Qed.

Lemma toFixed_returned (v : value) (q : Q) (s t : State) :
  toFixed v s = Returned q t -> t = s.
Proof.
  destruct v; try discriminate. unfold toFixed, ret.
  intros H. injection H as _ ->. reflexivity.
Qed.

Lemma charAt_slice_returned (v : value) (l : string) (s t : State) :
  charAt_slice v s = Returned l t -> v = Str l /\ t = s.
Proof.
  destruct v; try discriminate. unfold charAt_slice, ret.
  intros H. injection H as -> ->. split; reflexivity.
Qed.

Lemma to_string_returned (v : value) (s t : State) :
  to_string v s = Returned tt t -> converts v = true /\ t = s.
Proof.
  unfold to_string. destruct (converts v); [| discriminate].
  unfold ret. intros H. injection H as ->. split; reflexivity.
Qed.

Lemma updateEmotionBars_returned (v : value) (s t : State) :
  updateEmotionBars v s = Returned tt t -> t = s.
Proof.
  unfold updateEmotionBars.
  destruct (forallb _ _); [| discriminate].
  unfold ret. intros H. injection H as ->. reflexivity.
Qed.

Lemma update_returned (f : State -> State) (s t : State) :
  update f s = Returned tt t -> t = f s.
Proof. unfold update. intros H. injection H as ->. reflexivity. Qed.

(** The gaze part of [handleTrackingData] leaves the emotion entries
    alone. *)
Lemma gaze_block_keeps_emotions (gaze : value) (env : Env) (s t : State) :
  (if truthy gaze then
     gazeX <- prop gaze "GazeX" ;;
     gazeY <- prop gaze "GazeY" ;;
     update (set_gazeData (gazeX, gazeY)) ;;;
     gx <- toFixed gazeX ;;
     gy <- toFixed gazeY ;;
     update (push_gazePoint (mkGazePoint gx gy (now_gaze env)))
   else ret tt) s = Returned tt t ->
  emotions (sessionData t) = emotions (sessionData s).
Proof.
  destruct (truthy gaze); intros H.
  - apply bind_returned in H as (gazeX & s1 & H1 & H).
    apply prop_returned in H1 as [_ ->].
    apply bind_returned in H as (gazeY & s2 & H2 & H).
    apply prop_returned in H2 as [_ ->].
    apply bind_returned in H as ([] & s3 & H3 & H).
    apply update_returned in H3. subst s3.
    apply bind_returned in H as (gx & s4 & H4 & H).
    apply toFixed_returned in H4. subst s4.
    apply bind_returned in H as (gy & s5 & H5 & H).
    apply toFixed_returned in H5. subst s5.
    apply update_returned in H. subst t. reflexivity.
  - unfold ret in H. injection H as ->. reflexivity.
Qed.

(** Whenever [handleTrackingData] returns on a payload with an emotion
    section, of whatever shape, the section's label is a string and one
    entry was pushed, built from the label, a copy of the scores and the
    clock. *)
Lemma handleTrackingData_pushes (data emo : value) (env : Env) (s t : State) :
  isTracking s = true ->
  handleTrackingData data env s = Returned tt t ->
  get data "emotion" = Some emo ->
  truthy emo = true ->
  exists (lbl : string) (scs : value),
    get emo "emotion" = Some (Str lbl)
    /\ get emo "emotion_scores" = Some scs
    /\ emotions (sessionData t)
       = emotions (sessionData s)
         ++ [mkEmotionEntry lbl (spread scs) (now_emotion env)].
Proof.
  intros Htracking H Hemo Htruthy. unfold handleTrackingData in H.
  apply bind_returned in H as (st & s0 & H0 & H).
  unfold read in H0. injection H0 as -> ->.
  rewrite Htracking in H. cbn [negb] in H.
  apply bind_returned in H as (gaze & s1 & H1 & H).
  apply prop_returned in H1 as [_ ->].
  apply bind_returned in H as ([] & s2 & Hgaze & H).
  apply gaze_block_keeps_emotions in Hgaze.
  apply bind_returned in H as (emo' & s3 & H3 & H).
  apply prop_returned in H3 as [Hemo' ->].
  rewrite Hemo in Hemo'. injection Hemo' as <-.
  rewrite Htruthy in H.
  apply bind_returned in H as (emotion_v & s4 & H4 & H).
  apply prop_returned in H4 as [Hlabel ->].
  apply bind_returned in H as (emotionScores & s5 & H5 & H).
  apply prop_returned in H5 as [Hscores ->].
  apply bind_returned in H as (confidence_v & s6 & H6 & H).
  apply prop_returned in H6 as [_ ->].
  cbv zeta in H.
  apply bind_returned in H as ([] & s7 & H7 & H).
  apply update_returned in H7. subst s7.
  apply bind_returned in H as (lbl & s8 & H8 & H).
  apply charAt_slice_returned in H8 as [-> ->].
  apply bind_returned in H as ([] & s9 & H9 & H).
  apply to_string_returned in H9 as [_ ->].
  apply bind_returned in H as ([] & s10 & H10 & H).
  apply updateEmotionBars_returned in H10. subst s10.
  apply bind_returned in H as ([] & s11 & H11 & H).
  apply update_returned in H11. subst s11.
  exists lbl, emotionScores.
  split; [exact Hlabel |]. split; [exact Hscores |].
  destruct (random_below_005 env).
  - apply update_returned in H. subst t. cbn. rewrite Hgaze. reflexivity.
  - unfold ret in H. injection H as <-. cbn. rewrite Hgaze. reflexivity.
Qed.

(** C8, as stated, fails: the entry stored for a frame whose emotion
    section has a confidence of 87 holds a label, the scores and a
    timestamp, and no confidence. *)
Lemma stored_emotion_entry_lacks_confidence :
  let s' := final_state
              (onmessage (tracking_data_frame happy_87) (quiet 11) tracking_state) in
  map (fun e => keys (emotion_entry_object e)) (emotions (sessionData s'))
  = [["emotion"; "scores"; "timestamp"]]
  /\ map (fun e => get (Obj (emotion_entry_object e)) "confidence")
       (emotions (sessionData s'))
     = [Some Undefined].
Proof. split; reflexivity. Qed.

(** C8, amended. An emotion entry is recorded with exactly three fields:
    the label (under [emotion]), a copy of the scores and the timestamp.
    The confidence is not stored: reading it from a stored entry gives
    [undefined]. For a frame in the wire format the handler returns, the
    object it pushes is made of the section's label, its scores and the
    clock reading, and the recorded session is the same whatever
    confidence, a number or none, the frame carries. For a payload of any
    shape, whenever [handleTrackingData] returns on a present emotion
    section it has pushed exactly one entry, made of the section's label,
    a copy of its scores and the clock reading; so two payloads on which
    it returns and whose emotion sections agree on label and scores leave
    the same emotion entries, whatever their confidence is. *)
Theorem emotion_entry_holds_label_scores_timestamp :
  forall (s : State) (d : TrackingData) (env : Env) (c : option Q),
    isTracking s = true ->
    let s' := final_state (onmessage (tracking_data_frame d) env s) in
    emotions (sessionData s') = emotions (sessionData s) ++ emotion_sample (d, env)
    /\ Forall
         (fun e =>
            keys (emotion_entry_object e) = ["emotion"; "scores"; "timestamp"]
            /\ get (Obj (emotion_entry_object e)) "emotion" = Some (Str (emotion e))
            /\ get (Obj (emotion_entry_object e)) "scores" = Some (Obj (scores e))
            /\ get (Obj (emotion_entry_object e)) "timestamp"
               = Some (Number (inject_Z (entry_timestamp e)))
            /\ get (Obj (emotion_entry_object e)) "confidence" = Some Undefined)
         (emotions (sessionData s'))
    /\ sessionData
         (final_state (onmessage (tracking_data_frame (with_confidence c d)) env s))
       = sessionData s'
    /\ map emotion_entry_object (emotions (sessionData s'))
       = map emotion_entry_object (emotions (sessionData s))
         ++ match emotion_section d with
            | Some e =>
                [[("emotion", Str (label e));
                  ("scores", Obj (score_props (emotion_scores e)));
                  ("timestamp", Number (inject_Z (now_emotion env)))]]
            | None => []
            end
    /\ (forall (data emo : value) (t : State),
          handleTrackingData data env s = Returned tt t ->
          get data "emotion" = Some emo ->
          truthy emo = true ->
          exists (lbl : string) (scs : value),
            get emo "emotion" = Some (Str lbl)
            /\ get emo "emotion_scores" = Some scs
            /\ emotions (sessionData t)
               = emotions (sessionData s)
                 ++ [mkEmotionEntry lbl (spread scs) (now_emotion env)])
    /\ (forall (data1 data2 emo1 emo2 : value) (t1 t2 : State),
          handleTrackingData data1 env s = Returned tt t1 ->
          handleTrackingData data2 env s = Returned tt t2 ->
          get data1 "emotion" = Some emo1 ->
          get data2 "emotion" = Some emo2 ->
          truthy emo1 = true ->
          truthy emo2 = true ->
          get emo1 "emotion" = get emo2 "emotion" ->
          get emo1 "emotion_scores" = get emo2 "emotion_scores" ->
          emotions (sessionData t1) = emotions (sessionData t2)).
Proof.
  intros s d env c Htracking.
  destruct (onmessage_tracking_frame s d env Htracking)
    as (s1 & Hrun1 & _ & Hg1 & He1 & Hs1 & _).
  destruct (onmessage_tracking_frame s (with_confidence c d) env Htracking)
    as (s2 & Hrun2 & _ & Hg2 & He2 & Hs2 & _).
  destruct (samples_ignore_confidence c d env) as [Hgs Hes].
  cbv zeta. rewrite Hrun1, Hrun2. cbn [final_state].
  split; [exact He1 |].
  split; [apply Forall_forall; intros e _; repeat split |].
  split; [apply sessionData_ext; congruence |].
  split.
  { rewrite He1, map_app. unfold emotion_sample. cbn [fst snd].
    destruct (emotion_section d); reflexivity. }
  split.
  { intros data emo t. apply handleTrackingData_pushes. exact Htracking. }
  intros data1 data2 emo1 emo2 t1 t2 H1 H2 Hemo1 Hemo2 Ht1 Ht2 Hlabel Hscores.
  destruct (handleTrackingData_pushes data1 emo1 env s t1 Htracking H1 Hemo1 Ht1)
    as (l1 & sc1 & Hl1 & Hsc1 & ->).
  destruct (handleTrackingData_pushes data2 emo2 env s t2 Htracking H2 Hemo2 Ht2)
    as (l2 & sc2 & Hl2 & Hsc2 & ->).
  rewrite Hl1, Hl2 in Hlabel. rewrite Hsc1, Hsc2 in Hscores.
  injection Hlabel as ->. injection Hscores as ->. reflexivity.
Qed.

Lemma emotion_entry_holds_label_scores_timestamp_witness :
  isTracking tracking_state = true
  /\ emotions
       (sessionData
          (final_state
             (onmessage (tracking_data_frame happy_87) (quiet 11) tracking_state)))
     = emotions (sessionData tracking_state) ++ emotion_sample (happy_87, quiet 11).
Proof.
  split; [reflexivity |].
  apply (emotion_entry_holds_label_scores_timestamp
           tracking_state happy_87 (quiet 11) None).
  reflexivity.
Defined.

(** *** Export *)

(** Export of a session without any sample: only the log entry is added,
    no artifact is built. *)
Lemma exportData_without_samples (now_end now_summary : Z) (api : bool) (s : State) :
  emotions (sessionData s) = [] ->
  gazePoints (sessionData s) = [] ->
  exportData now_end now_summary api s
  = addLogEntry (Text "No data to export.") s.
Proof.
  intros He Hg. unfold exportData. rewrite He, Hg. reflexivity.
Qed.

(** Export of a session with at least one emotion entry: one artifact is
    built and the two totals of its summary add up to the number of
    stored samples. *)
Lemma exportData_totals_with_emotions
  (now_end now_summary : Z) (api : bool) (s : State) :
  emotions (sessionData s) <> [] ->
  exists k,
    exports (exportData now_end now_summary api s) = exports s ++ [k]
    /\ exported_emotions (exported k) = emotions (sessionData s)
    /\ exported_gazePoints (exported k) = gazePoints (sessionData s)
    /\ js_add (totalGazeSamples (summary (exported k)))
              (totalEmotionSamples (summary (exported k)))
       = Finite (length (gazePoints (sessionData s))
                 + length (emotions (sessionData s))).
Proof.
  intros Hne. unfold exportData, generateSummary.
  cbn [sessionData addLogEntry set_logContainer].
  destruct (emotions (sessionData s)) as [| e es] eqn:He; [contradiction |].
  cbn [length Nat.eqb andb].
  destruct api; eexists; repeat split.
Qed.

(** C1, at the session that holds one gaze point and no emotion entry
    (start, one frame with a gaze section, stop): the export builds an
    artifact with that gaze point, but its summary comes from the early
    return of [generateSummary], which defines neither total; their sum
    is NaN where one sample was recorded. *)
Theorem export_of_gaze_only_session_has_no_totals :
  stored_samples gaze_only_session = 1
  /\ exists d,
       exports (exportData 20 20 true gaze_only_session) = [ViaHostApi d]
       /\ length (exported_gazePoints d) = 1
       /\ summary d = mkSummary "none" [] None None None
       /\ js_add (totalGazeSamples (summary d)) (totalEmotionSamples (summary d))
          = NaN.
Proof.
  split; [reflexivity |].
  eexists. split; [reflexivity |]. repeat split.
Qed.

(** *** The primary emotion *)

Lemma differs_true (k l : string) : differs k l = true <-> l <> k.
Proof.
  unfold differs. rewrite negb_true_iff. apply String.eqb_neq.
Qed.

Lemma seen_In (l : string) (ls : list string) : seen l ls = true <-> In l ls.
Proof.
  unfold seen. rewrite existsb_exists. split.
  - intros (k & Hin & Heq). apply String.eqb_eq in Heq. subst. exact Hin.
  - intros Hin. exists l. split; [exact Hin | apply String.eqb_refl].
Qed.

Lemma not_seen_In (l : string) (ls : list string) : seen l ls = false <-> ~ In l ls.
Proof.
  rewrite <- seen_In. destruct (seen l ls); split; congruence.
Qed.

Lemma In_first_seen (l : string) (ls : list string) :
  In l (first_seen ls) <-> In l ls.
Proof.
  induction ls as [| k rest IH]; [reflexivity |].
  cbn [first_seen In]. rewrite filter_In, differs_true, IH.
  destruct (string_dec k l) as [-> | Hne]; [tauto |].
  split; [tauto |]. intros [H | H]; [tauto |]. right. split; congruence.
Qed.

Lemma seen_first_seen (l : string) (ls : list string) :
  seen l (first_seen ls) = seen l ls.
Proof.
  apply eq_true_iff_eq. rewrite !seen_In. apply In_first_seen.
Qed.

Lemma NoDup_first_seen (ls : list string) : NoDup (first_seen ls).
Proof.
  induction ls as [| k rest IH]; cbn [first_seen]; constructor.
  - rewrite filter_In, differs_true. tauto.
  - apply NoDup_filter, IH.
Qed.

Lemma first_seen_snoc (l : string) (ls : list string) :
  first_seen (ls ++ [l]) = first_seen ls ++ (if seen l ls then [] else [l]).
Proof.
  induction ls as [| k rest IH].
  - reflexivity.
  - rewrite <- app_comm_cons. cbn [first_seen].
    rewrite IH, filter_app, app_comm_cons. f_equal.
    unfold seen. cbn [existsb]. fold (seen l rest).
    destruct (seen l rest).
    + rewrite orb_true_r. reflexivity.
    + rewrite orb_false_r. cbn [filter]. unfold differs.
      destruct (String.eqb l k); reflexivity.
Qed.

Lemma occurrences_snoc (k l : string) (ls : list string) :
  occurrences k (ls ++ [l]) = occurrences k ls + (if String.eqb l k then 1 else 0).
Proof.
  unfold occurrences. rewrite count_occ_app. cbn [count_occ].
  destruct (string_dec l k) as [-> | Hne].
  - rewrite String.eqb_refl. reflexivity.
  - apply String.eqb_neq in Hne. rewrite Hne. reflexivity.
Qed.

Lemma occurrences_positive (l : string) (ls : list string) :
  In l ls <-> 0 < occurrences l ls.
Proof. unfold occurrences. apply count_occ_In. Qed.

Lemma assoc_tabulate {A : Type} (f : string -> A) (ks : list string) (l : string) :
  assoc l (map (fun k => (k, f k)) ks) = if seen l ks then Some (f l) else None.
Proof.
  induction ks as [| k ks IH]; [reflexivity |].
  cbn [map assoc]. unfold seen. cbn [existsb]. fold (seen l ks).
  destruct (String.eqb l k) eqn:Heq; cbn [orb].
  - apply String.eqb_eq in Heq. subst. reflexivity.
  - exact IH.
Qed.

Lemma replace_or_append_tabulate (f : string -> CountValue) (ks : list string)
  (l : string) (v : CountValue) :
  NoDup ks ->
  replace_or_append l v (map (fun k => (k, f k)) ks)
  = if seen l ks
    then map (fun k => (k, if String.eqb l k then v else f k)) ks
    else map (fun k => (k, f k)) ks ++ [(l, v)].
Proof.
  induction 1 as [| k ks Hnotin Hnodup IH]; [reflexivity |].
  cbn [map replace_or_append]. unfold seen. cbn [existsb]. fold (seen l ks).
  destruct (String.eqb l k) eqn:Heq; cbn [orb].
  - f_equal. apply map_ext_in. intros k' Hin.
    destruct (String.eqb l k') eqn:Heq'; [| reflexivity].
    apply String.eqb_eq in Heq, Heq'. subst. contradiction.
  - rewrite IH. destruct (seen l ks); reflexivity.
Qed.

Lemma ordinary_named (l : string) : ordinary l = true -> is_named l = true.
Proof. unfold ordinary. intros H. apply andb_prop in H. tauto. Qed.

Lemma ordinary_not_inherited (l : string) : ordinary l = true -> inherited l = false.
Proof.
  unfold ordinary. intros H. apply andb_prop in H.
  destruct H as [_ H]. apply negb_true_iff in H. exact H.
Qed.

Lemma ordinary_not_proto (l : string) :
  ordinary l = true -> String.eqb l "__proto__" = false.
Proof.
  intros H. apply ordinary_not_inherited in H.
  destruct (String.eqb l "__proto__") eqn:Heq; [| reflexivity].
  apply String.eqb_eq in Heq. subst. discriminate H.
Qed.

Lemma count_step_counts_of (l : string) (ls : list string) :
  ordinary l = true ->
  count_step (counts_of ls) l = counts_of (ls ++ [l]).
Proof.
  intros Hord. unfold count_step, assign, lookup, counts_of.
  rewrite (ordinary_not_proto l Hord), (ordinary_not_inherited l Hord).
  rewrite assoc_tabulate, first_seen_snoc, seen_first_seen.
  rewrite replace_or_append_tabulate by apply NoDup_first_seen.
  rewrite seen_first_seen.
  destruct (seen l ls) eqn:Hseen; cbn [incremented].
  - rewrite app_nil_r. apply map_ext. intros k.
    rewrite occurrences_snoc.
    destruct (String.eqb l k) eqn:Heq.
    + apply String.eqb_eq in Heq. subst. reflexivity.
    + rewrite Nat.add_0_r. reflexivity.
  - rewrite map_app. cbn [map]. f_equal.
    + apply map_ext_in. intros k Hin. rewrite occurrences_snoc.
      destruct (String.eqb l k) eqn:Heq.
      * apply String.eqb_eq in Heq. subst.
        apply (proj1 (In_first_seen k ls)) in Hin.
        apply (proj2 (seen_In k ls)) in Hin. congruence.
      * rewrite Nat.add_0_r. reflexivity.
    + rewrite occurrences_snoc, String.eqb_refl.
      apply not_seen_In in Hseen. unfold occurrences.
      rewrite (count_occ_not_In string_dec) in Hseen. rewrite Hseen. reflexivity.
Qed.

Lemma fold_count_step (ls : list string) :
  forallb ordinary ls = true ->
  fold_left count_step ls [] = counts_of ls.
Proof.
  induction ls as [| l ls IH] using rev_ind; [reflexivity |].
  rewrite forallb_app. intros H. apply andb_prop in H. destruct H as [Hls Hl].
  cbn [forallb] in Hl. rewrite andb_true_r in Hl.
  rewrite fold_left_app. cbn [fold_left]. rewrite (IH Hls).
  apply count_step_counts_of, Hl.
Qed.

Lemma count_emotions_labels (es : list EmotionEntry) :
  count_emotions es = fold_left count_step (map emotion es) [].
Proof.
  unfold count_emotions. generalize (@nil (string * CountValue)).
  induction es as [| e es IH]; intros obj; [reflexivity |].
  cbn [fold_left map]. apply IH.
Qed.

Lemma keys_counts_of (ls : list string) : keys (counts_of ls) = first_seen ls.
Proof.
  unfold keys, counts_of. rewrite map_map. cbn [fst]. apply map_id.
Qed.

Lemma index_keys_named (ks : list string) :
  forallb is_named ks = true -> index_keys ks = [].
Proof.
  induction ks as [| k ks IH]; [reflexivity |].
  cbn [forallb]. intros H. apply andb_prop in H. destruct H as [Hk Hks].
  unfold index_keys. cbn [fold_right]. fold (index_keys ks).
  unfold is_named in Hk. destruct (array_index k); [discriminate |].
  apply IH, Hks.
Qed.

Lemma filter_all {A : Type} (f : A -> bool) (l : list A) :
  forallb f l = true -> filter f l = l.
Proof.
  induction l as [| a l IH]; [reflexivity |].
  cbn [forallb filter]. intros H. apply andb_prop in H. destruct H as [Ha Hl].
  rewrite Ha, (IH Hl). reflexivity.
Qed.

Lemma for_in_keys_named (obj : list (string * CountValue)) :
  forallb is_named (keys obj) = true -> for_in_keys obj = keys obj.
Proof.
  intros H. unfold for_in_keys.
  rewrite (index_keys_named _ H), (filter_all _ _ H). reflexivity.
Qed.

Lemma first_seen_named (ls : list string) :
  forallb ordinary ls = true -> forallb is_named (first_seen ls) = true.
Proof.
  rewrite !forallb_forall. intros H k Hin.
  apply ordinary_named, H, In_first_seen, Hin.
Qed.

Lemma consider_own (obj : list (string * CountValue)) (k p : string) (n m : nat) :
  lookup obj k = Own (Count n) ->
  consider obj (p, m) k = if (m <? n)%nat then (k, n) else (p, m).
Proof.
  intros Hown. unfold consider. rewrite Hown. reflexivity.
Qed.

(** The loop keeps the first label whose count exceeds all earlier ones
    and is not exceeded later. *)
Lemma consider_first_greatest (obj : list (string * CountValue))
  (c : string -> nat) (ks : list string) :
  (forall k, In k ks -> lookup obj k = Own (Count (c k))) ->
  forall (p0 : string) (m0 : nat),
    let r := fold_left (consider obj) ks (p0, m0) in
    (r = (p0, m0) /\ forall k, In k ks -> c k <= m0)
    \/ (exists pre post,
          ks = pre ++ fst r :: post
          /\ snd r = c (fst r)
          /\ m0 < c (fst r)
          /\ (forall k, In k pre -> c k < c (fst r))
          /\ (forall k, In k post -> c k <= c (fst r))).
Proof.
  induction ks as [| a ks IH]; intros Hown p0 m0; cbv zeta.
  - left. split; [reflexivity | contradiction].
  - assert (Hown' : forall k, In k ks -> lookup obj k = Own (Count (c k))).
    { intros k Hk. apply Hown. right. exact Hk. }
    cbn [fold_left].
    rewrite (consider_own obj a p0 (c a) m0 (Hown a (or_introl eq_refl))).
    destruct (m0 <? c a)%nat eqn:Hlt.
    + apply Nat.ltb_lt in Hlt.
      pose proof (IH Hown' a (c a)) as Hrest. cbv zeta in Hrest.
      destruct Hrest as [[Hr Hle] | (pre & post & Hks & Hm & Hgt & Hpre & Hpost)].
      * right. exists [], ks. rewrite Hr. cbn [fst snd app].
        repeat split; try assumption. intros k [].
      * right. exists (a :: pre), post.
        repeat split; try assumption.
        -- rewrite <- app_comm_cons. f_equal. exact Hks.
        -- lia.
        -- intros k [<- | Hk]; [exact Hgt | apply Hpre, Hk].
    + apply Nat.ltb_ge in Hlt.
      pose proof (IH Hown' p0 m0) as Hrest. cbv zeta in Hrest.
      destruct Hrest as [[Hr Hle] | (pre & post & Hks & Hm & Hgt & Hpre & Hpost)].
      * left. split; [exact Hr |].
        intros k [<- | Hk]; [exact Hlt | apply Hle, Hk].
      * right. exists (a :: pre), post.
        repeat split; try assumption.
        -- rewrite <- app_comm_cons. f_equal. exact Hks.
        -- intros k [<- | Hk]; [lia | apply Hpre, Hk].
Qed.

Lemma filter_split {A : Type} (f : A -> bool) (xs : list A) :
  forall (pre : list A) (p : A) (post : list A),
    filter f xs = pre ++ p :: post ->
    exists pre' post',
      xs = pre' ++ p :: post' /\ filter f pre' = pre /\ filter f post' = post.
Proof.
  induction xs as [| a xs IH]; intros pre p post H.
  - destruct pre; discriminate H.
  - cbn [filter] in H. destruct (f a) eqn:Hfa.
    + destruct pre as [| b pre].
      * injection H as Ha Hpost. subst a. exists [], xs. repeat split. exact Hpost.
      * injection H as Ha Hrest. subst b.
        destruct (IH pre p post Hrest) as (pre' & post' & -> & Hpre & Hpost).
        exists (a :: pre'), post'. repeat split; [| exact Hpost].
        cbn [filter]. rewrite Hfa, Hpre. reflexivity.
    + destruct (IH pre p post H) as (pre' & post' & -> & Hpre & Hpost).
      exists (a :: pre'), post'. repeat split; [| exact Hpost].
      cbn [filter]. rewrite Hfa. exact Hpre.
Qed.

(** In [first_seen], a label stands before the labels first seen later. *)
Lemma first_seen_order (ls : list string) :
  forall (pre : list string) (p : string) (post : list string) (l : string),
    first_seen ls = pre ++ p :: post ->
    In l post ->
    first_index p ls < first_index l ls.
Proof.
  induction ls as [| k ls IH]; intros pre p post l Hsplit Hin.
  - destruct pre; discriminate Hsplit.
  - cbn [first_seen] in Hsplit. cbn [first_index].
    destruct pre as [| b pre].
    + injection Hsplit as Hk Hpost. subst k.
      rewrite String.eqb_refl.
      rewrite <- Hpost in Hin. apply filter_In in Hin.
      destruct Hin as [_ Hne]. apply differs_true, String.eqb_neq in Hne.
      rewrite Hne. lia.
    + injection Hsplit as Hk Hrest. subst b.
      destruct (filter_split _ _ _ _ _ Hrest) as (pre' & post' & Hfs & Hpre & Hpost).
      assert (Hp : In p (filter (differs k) (first_seen ls))).
      { rewrite Hrest. apply in_elt. }
      assert (Hl : In l (filter (differs k) (first_seen ls))).
      { rewrite Hrest. apply in_or_app. right. right. exact Hin. }
      apply filter_In in Hp, Hl.
      destruct Hp as [_ Hp], Hl as [_ Hl].
      apply differs_true, String.eqb_neq in Hp, Hl. rewrite Hp, Hl.
      apply -> Nat.succ_lt_mono. apply (IH pre' p post' l Hfs).
      rewrite <- Hpost in Hin. apply filter_In in Hin. tauto.
Qed.

Lemma lookup_counts_of (ls : list string) (k : string) :
  In k (first_seen ls) ->
  lookup (counts_of ls) k = Own (Count (occurrences k ls)).
Proof.
  intros Hin. unfold lookup, counts_of. rewrite assoc_tabulate.
  apply (proj2 (seen_In k (first_seen ls))) in Hin. rewrite Hin. reflexivity.
Qed.

Lemma most_common_counts_of (ls : list string) :
  forallb ordinary ls = true ->
  ls <> [] ->
  let p := fst (most_common (counts_of ls)) in
  In p ls
  /\ (forall l, occurrences l ls <= occurrences p ls)
  /\ (forall l, In l ls ->
                occurrences l ls = occurrences p ls ->
                first_index p ls <= first_index l ls).
Proof.
  intros Hord Hne. unfold most_common.
  rewrite for_in_keys_named; rewrite keys_counts_of;
    [| apply first_seen_named, Hord].
  pose proof (consider_first_greatest (counts_of ls)
                (fun k => occurrences k ls) (first_seen ls)
                (lookup_counts_of ls) "neutral" 0) as Hloop.
  cbv zeta in Hloop. cbv zeta.
  set (r := fold_left (consider (counts_of ls)) (first_seen ls) ("neutral", 0)) in *.
  destruct Hloop as [[_ Hle] | (pre & post & Hks & _ & _ & Hpre & Hpost)].
  - destruct ls as [| k ls]; [contradiction |].
    assert (Hk : In k (first_seen (k :: ls))) by (left; reflexivity).
    specialize (Hle k Hk).
    assert (Hpos : 0 < occurrences k (k :: ls)).
    { apply occurrences_positive. left. reflexivity. }
    lia.
  - assert (Hp : In (fst r) ls).
    { apply In_first_seen. rewrite Hks. apply in_elt. }
    assert (Hcases : forall l, In l ls -> In l pre \/ l = fst r \/ In l post).
    { intros l Hl. apply In_first_seen in Hl. rewrite Hks in Hl.
      apply in_app_or in Hl. destruct Hl as [Hl | [Hl | Hl]]; auto. }
    split; [exact Hp |]. split.
    + intros l. destruct (in_dec string_dec l ls) as [Hl | Hl].
      * destruct (Hcases l Hl) as [H | [-> | H]].
        -- apply Nat.lt_le_incl, Hpre, H.
        -- apply Nat.le_refl.
        -- apply Hpost, H.
      * unfold occurrences at 1.
        rewrite (proj1 (count_occ_not_In string_dec ls l) Hl). apply Nat.le_0_l.
    + intros l Hl Htie. destruct (Hcases l Hl) as [H | [-> | H]].
      * specialize (Hpre l H). lia.
      * apply Nat.le_refl.
      * apply Nat.lt_le_incl. apply (first_seen_order ls pre (fst r) post l Hks H).
Qed.

(** C2, as stated, fails twice. A session without emotion entries gets the
    primary emotion "none", not "neutral": [generateSummary] returns early
    for it. And when the labels are array indices the loop visits them in
    ascending order, not in first-seen order: with "2" recorded before "1",
    once each, the primary emotion is "1". *)
Lemma primaryEmotion_defaults_to_none :
  labels gaze_only_session = []
  /\ primaryEmotion (generateSummary 20 gaze_only_session) = "none"
  /\ primaryEmotion (generateSummary 20 gaze_only_session) <> "neutral"
  /\ labels two_one_session = ["2"; "1"]
  /\ primaryEmotion (generateSummary 20 two_one_session) = "1".
Proof.
  repeat split. intros H. discriminate H.
Qed.

(** C2, amended. The primary emotion of a session without emotion entries
    is "none". For a session with emotion entries whose labels are
    ordinary names, it is a recorded label with the highest number of
    occurrences, and among the labels with that number it is the one seen
    first. *)
Theorem primaryEmotion_is_first_most_common :
  forall (now : Z) (s : State),
    forallb ordinary (labels s) = true ->
    let p := primaryEmotion (generateSummary now s) in
    match labels s with
    | [] => p = "none"
    | _ :: _ =>
        In p (labels s)
        /\ (forall l, occurrences l (labels s) <= occurrences p (labels s))
        /\ (forall l, In l (labels s) ->
                      occurrences l (labels s) = occurrences p (labels s) ->
                      first_index p (labels s) <= first_index l (labels s))
    end.
Proof.
  intros now s Hord. cbv zeta. unfold generateSummary.
  unfold labels in *.
  destruct (emotions (sessionData s)) as [| e es] eqn:He.
  - reflexivity.
  - cbn [length Nat.eqb primaryEmotion].
    rewrite count_emotions_labels, (fold_count_step _ Hord).
    change (map emotion (e :: es)) with (emotion e :: map emotion es) in *.
    apply (most_common_counts_of (emotion e :: map emotion es) Hord).
    discriminate.
Qed.

Lemma primaryEmotion_is_first_most_common_witness :
  forallb ordinary (labels happy_sad_session) = true
  /\ primaryEmotion (generateSummary 20 happy_sad_session) = "sad"
  /\ In (primaryEmotion (generateSummary 20 happy_sad_session))
        (labels happy_sad_session).
Proof.
  split; [reflexivity |]. split; [reflexivity |].
  apply (primaryEmotion_is_first_most_common 20%Z happy_sad_session).
  reflexivity.
Defined.

(** *** The log container *)

Lemma skipn_suffix {A : Type} (n : nat) (l : list A) :
  l = firstn n l ++ skipn n l.
Proof. symmetry. apply firstn_skipn. Qed.

Lemma last_of_app {A : Type} (a b : list A) (d : A) :
  b <> [] -> last (a ++ b) d = last b d.
Proof.
  intros Hb. induction a as [| x a IH]; [reflexivity |].
  rewrite <- app_comm_cons. rewrite <- IH.
  destruct (a ++ b) eqn:Hab; [| reflexivity].
  apply app_eq_nil in Hab. destruct Hab as [_ Hnil]. contradiction.
Qed.

(** X1. [addLogEntry] leaves the log with the new entry last and with at
    most a hundred entries: the log afterwards is the end of the former
    log followed by the new entry, the oldest entries being the ones that
    are dropped. *)
Theorem addLogEntry_keeps_last_hundred :
  forall (e : LogEntry) (s : State),
    let l := logContainer (addLogEntry e s) in
    length l = Nat.min (S (length (logContainer s))) 100
    /\ last l e = e
    /\ (exists dropped, logContainer s ++ [e] = dropped ++ l)
    /\ l <> [].
Proof.
  intros e s. cbv zeta. unfold addLogEntry. cbn [logContainer set_logContainer].
  set (full := logContainer s ++ [e]).
  assert (Hlen : length full = S (length (logContainer s))).
  { unfold full. rewrite length_app. cbn. lia. }
  assert (Hsk : length (skipn (length full - 100) full)
                = Nat.min (S (length (logContainer s))) 100).
  { rewrite length_skipn. lia. }
  split; [exact Hsk | split; [| split]].
  - assert (Hsplit : full = firstn (length full - 100) full
                            ++ skipn (length full - 100) full)
      by apply skipn_suffix.
    assert (Hne : skipn (length full - 100) full <> []).
    { intros H. rewrite H in Hsk. cbn in Hsk. lia. }
    assert (Hlast : last full e = e) by (unfold full; apply last_last).
    rewrite Hsplit in Hlast. rewrite last_of_app in Hlast by exact Hne. exact Hlast.
  - exists (firstn (length full - 100) full). apply skipn_suffix.
  - intros H. rewrite H in Hsk. cbn in Hsk. lia.
Qed.

(** *** What a frame can change *)

Ltac nothing_added :=
  exists []; rewrite app_nil_r; (split; [reflexivity | apply Nat.le_0_l]).

Lemma grown_refl (s : State) : grown 0 0 s s.
Proof.
  unfold grown. split; [reflexivity |]. split; [auto |].
  repeat split; nothing_added.
Qed.

Lemma grown_trans (g1 e1 g2 e2 : nat) (s1 s2 s3 : State) :
  grown g1 e1 s1 s2 -> grown g2 e2 s2 s3 -> grown (g1 + g2) (e1 + e2) s1 s3.
Proof.
  intros (Ht & Hl & Hw & Hb & Hs & Hx & Hst & (gs & Hg & Hgl) & (es & He & Hel))
         (Ht' & Hl' & Hw' & Hb' & Hs' & Hx' & Hst' & (gs' & Hg' & Hgl') & (es' & He' & Hel')).
  unfold grown. split; [congruence |]. split; [auto |].
  repeat split; try congruence.
  - exists (gs ++ gs'). rewrite Hg', Hg, <- app_assoc, length_app.
    split; [reflexivity | lia].
  - exists (es ++ es'). rewrite He', He, <- app_assoc, length_app.
    split; [reflexivity | lia].
Qed.

Lemma grown_weaken (g e g' e' : nat) (s s' : State) :
  g <= g' -> e <= e' -> grown g e s s' -> grown g' e' s s'.
Proof.
  intros Hg He (Ht & Hl & Hw & Hb & Hs & Hx & Hst & (gs & Hgs & Hgl) & (es & Hes & Hel)).
  unfold grown. split; [assumption |]. split; [assumption |].
  repeat split; try assumption.
  - exists gs. split; [assumption | lia].
  - exists es. split; [assumption | lia].
Qed.

Lemma grows_ret {A : Type} (a : A) : grows 0 0 (ret a).
Proof. intros s. apply grown_refl. Qed.

Lemma grows_throw {A : Type} (x : Exn) : grows 0 0 (@throw A x).
Proof. intros s. apply grown_refl. Qed.

Lemma grows_read : grows 0 0 read.
Proof. intros s. apply grown_refl. Qed.

Lemma grows_bind {A B : Type} (g1 e1 g2 e2 : nat) (c : M A) (k : A -> M B) :
  grows g1 e1 c ->
  (forall a, grows g2 e2 (k a)) ->
  grows (g1 + g2) (e1 + e2) (bind c k).
Proof.
  intros Hc Hk s. unfold bind. specialize (Hc s).
  destruct (c s) as [a s' | x s']; cbn [final_state] in *.
  - apply (grown_trans g1 e1 g2 e2 s s' _ Hc). apply Hk.
  - apply (grown_weaken g1 e1); [lia | lia | exact Hc].
Qed.

Lemma grows_weaken {A : Type} (g e g' e' : nat) (c : M A) :
  g <= g' -> e <= e' -> grows g e c -> grows g' e' c.
Proof.
  intros Hg He Hc s. apply (grown_weaken g e); auto.
Qed.

Lemma grows_update (g e : nat) (f : State -> State) :
  (forall s, grown g e s (f s)) -> grows g e (update f).
Proof. intros Hf s. apply Hf. Qed.

Lemma grows_prop (v : value) (k : string) : grows 0 0 (prop v k).
Proof.
  unfold prop. destruct (get v k); [apply grows_ret | apply grows_throw].
Qed.

Lemma grows_toFixed (v : value) : grows 0 0 (toFixed v).
Proof. destruct v; first [apply grows_ret | apply grows_throw]. Qed.

Lemma grows_charAt_slice (v : value) : grows 0 0 (charAt_slice v).
Proof. destruct v; first [apply grows_ret | apply grows_throw]. Qed.

Lemma grows_to_string (v : value) : grows 0 0 (to_string v).
Proof.
  unfold to_string. destruct (converts v); [apply grows_ret | apply grows_throw].
Qed.

Lemma grows_updateEmotionBars (v : value) : grows 0 0 (updateEmotionBars v).
Proof.
  unfold updateEmotionBars.
  destruct (forallb _ _); [apply grows_ret | apply grows_throw].
Qed.

Lemma addLogEntry_bounded (e : LogEntry) (s : State) :
  length (logContainer (addLogEntry e s)) <= 100.
Proof.
  unfold addLogEntry. cbn [logContainer set_logContainer].
  rewrite length_skipn, length_app. cbn [length]. lia.
Qed.

Lemma grown_addLogEntry (e : LogEntry) (s : State) : grown 0 0 s (addLogEntry e s).
Proof.
  unfold grown. split; [reflexivity |].
  split; [intros _; apply addLogEntry_bounded |].
  repeat split; nothing_added.
Qed.

Lemma grown_set_gazeData (g : value * value) (s : State) : grown 0 0 s (set_gazeData g s).
Proof.
  unfold grown. split; [reflexivity |]. split; [auto |].
  repeat split; nothing_added.
Qed.

Lemma grown_set_currentEmotions (v : value) (s : State) :
  grown 0 0 s (set_currentEmotions v s).
Proof.
  unfold grown. split; [reflexivity |]. split; [auto |].
  repeat split; nothing_added.
Qed.

Lemma grown_push_gazePoint (p : GazePoint) (s : State) :
  grown 1 0 s (push_gazePoint p s).
Proof.
  unfold grown. split; [reflexivity |]. split; [auto |].
  repeat split.
  - exists [p]. split; [reflexivity | apply Nat.le_refl].
  - nothing_added.
Qed.

Lemma grown_push_emotion (x : EmotionEntry) (s : State) :
  grown 0 1 s (push_emotion x s).
Proof.
  unfold grown. split; [reflexivity |]. split; [auto |].
  repeat split.
  - nothing_added.
  - exists [x]. split; [reflexivity | apply Nat.le_refl].
Qed.

Ltac grows_step :=
  first
    [ apply grows_ret | apply grows_throw | apply grows_read
    | apply grows_prop | apply grows_toFixed | apply grows_charAt_slice
    | apply grows_to_string | apply grows_updateEmotionBars
    | apply grows_update; intros;
      first [ apply grown_addLogEntry | apply grown_set_gazeData
            | apply grown_set_currentEmotions | apply grown_push_gazePoint
            | apply grown_push_emotion ] ].

Lemma grows_gaze_block (gaze : value) (env : Env) :
  grows 1 0
    (if truthy gaze then
       gazeX <- prop gaze "GazeX" ;;
       gazeY <- prop gaze "GazeY" ;;
       update (set_gazeData (gazeX, gazeY)) ;;;
       gx <- toFixed gazeX ;;
       gy <- toFixed gazeY ;;
       update (push_gazePoint (mkGazePoint gx gy (now_gaze env)))
     else ret tt).
Proof.
  destruct (truthy gaze).
  - apply (grows_bind 0 0 1 0); [grows_step | intros gazeX].
    apply (grows_bind 0 0 1 0); [grows_step | intros gazeY].
    apply (grows_bind 0 0 1 0); [grows_step | intros _].
    apply (grows_bind 0 0 1 0); [grows_step | intros gx].
    apply (grows_bind 0 0 1 0); [grows_step | intros gy].
    grows_step.
  - apply (grows_weaken 0 0); [lia | lia | grows_step].
Qed.

Lemma grows_handleTrackingData (data : value) (env : Env) :
  grows 1 1 (handleTrackingData data env).
Proof.
  unfold handleTrackingData.
  apply (grows_bind 0 0 1 1); [grows_step | intros st].
  destruct (negb (isTracking st)).
  { apply (grows_weaken 0 0); [lia | lia | grows_step]. }
  apply (grows_bind 0 0 1 1); [grows_step | intros gaze].
  apply (grows_bind 1 0 0 1); [apply grows_gaze_block | intros _].
  apply (grows_bind 0 0 0 1); [grows_step | intros emo].
  destruct (truthy emo); [| apply (grows_weaken 0 0); [lia | lia | grows_step]].
  apply (grows_bind 0 0 0 1); [grows_step | intros emotion_v].
  apply (grows_bind 0 0 0 1); [grows_step | intros emotionScores].
  apply (grows_bind 0 0 0 1); [grows_step | intros confidence_v].
  cbv zeta.
  apply (grows_bind 0 0 0 1); [grows_step | intros _].
  apply (grows_bind 0 0 0 1); [grows_step | intros lbl].
  apply (grows_bind 0 0 0 1); [grows_step | intros _].
  apply (grows_bind 0 0 0 1); [grows_step | intros _].
  apply (grows_bind 0 1 0 0); [grows_step | intros _].
  destruct (random_below_005 env); grows_step.
Qed.

Lemma grows_onmessage (frame : Frame) (env : Env) :
  grows 1 1 (onmessage frame env).
Proof.
  unfold onmessage.
  apply (grows_bind 0 0 1 1).
  { destruct frame; [apply grows_throw | apply grows_ret]. }
  intros message.
  apply (grows_bind 0 0 1 1); [grows_step | intros type].
  destruct (is_string type "tracking_data").
  - apply (grows_bind 0 0 1 1); [grows_step | intros data].
    apply grows_handleTrackingData.
  - apply (grows_weaken 0 0); [lia | lia |].
    destruct (is_string type "command_response"); [| grows_step].
    apply (grows_bind 0 0 0 0); [grows_step | intros command].
    apply (grows_bind 0 0 0 0); [grows_step | intros status].
    apply (grows_bind 0 0 0 0); [grows_step | intros _].
    apply (grows_bind 0 0 0 0); [grows_step | intros _].
    grows_step.
Qed.

(** X3. Whatever the frame is, and whether the handler returns or throws,
    [onmessage] leaves the tracking flag, the socket, the buttons, the
    channel, the exports and the session's start time as they were, and
    the sample sequences as they were except for at most one gaze point
    and at most one emotion entry added at their end. *)
Theorem onmessage_only_appends_samples :
  forall (frame : Frame) (env : Env) (s : State),
    let s' := final_state (onmessage frame env s) in
    isTracking s' = isTracking s
    /\ wsConnection s' = wsConnection s
    /\ buttons s' = buttons s
    /\ sent s' = sent s
    /\ exports s' = exports s
    /\ startTime (sessionData s') = startTime (sessionData s)
    /\ (exists gs, gazePoints (sessionData s') = gazePoints (sessionData s) ++ gs
                   /\ length gs <= 1)
    /\ (exists es, emotions (sessionData s') = emotions (sessionData s) ++ es
                   /\ length es <= 1).
Proof.
  intros frame env s.
  destruct (grows_onmessage frame env s) as (H1 & _ & H2). split; assumption.
Qed.

(** *** Frames while not tracking *)

Lemma onmessage_not_tracking (frame : Frame) (env : Env) (s : State) :
  isTracking s = false ->
  exists l, final_state (onmessage frame env s) = set_logContainer l s.
Proof.
  intros Hidle.
  assert (Hsame : s = set_logContainer (logContainer s) s) by (destruct s; reflexivity).
  unfold onmessage, bind, JSON_parse, prop, to_string, ret, throw, update.
  destruct frame as [| message]; [exists (logContainer s); exact Hsame |].
  destruct (get message "type") as [type |]; [| exists (logContainer s); exact Hsame].
  destruct (is_string type "tracking_data").
  - destruct (get message "data") as [data |]; [| exists (logContainer s); exact Hsame].
    rewrite (handleTrackingData_not_tracking data env s Hidle).
    exists (logContainer s). exact Hsame.
  - destruct (is_string type "command_response");
      [| exists (logContainer s); exact Hsame].
    destruct (get message "command") as [command |];
      [| exists (logContainer s); exact Hsame].
    destruct (get message "status") as [status |];
      [| exists (logContainer s); exact Hsame].
    destruct (converts command); [| exists (logContainer s); exact Hsame].
    destruct (converts status); [| exists (logContainer s); exact Hsame].
    eexists. reflexivity.
Qed.

(** X4. While [state.isTracking] is false, a sequence of frames of any
    kind (tracking data, command responses, unknown types, text that is
    not JSON) changes nothing but the log. *)
Theorem frames_outside_tracking_touch_only_the_log :
  forall (fs : list (Frame * Env)) (s : State),
    isTracking s = false ->
    exists l, fst (deliver_all s fs) = set_logContainer l s.
Proof.
  induction fs as [| [f env] fs IH]; intros s Hidle.
  - exists (logContainer s). destruct s; reflexivity.
  - rewrite deliver_all_cons. cbn [fst].
    destruct (onmessage_not_tracking f env s Hidle) as [l Hl].
    rewrite Hl.
    destruct (IH (set_logContainer l s) Hidle) as [l' Hl'].
    rewrite Hl'. exists l'. reflexivity.
Qed.

Lemma frames_outside_tracking_touch_only_the_log_witness :
  isTracking gaze_only_session = false
  /\ exists l,
       fst (deliver_all gaze_only_session
              [(tracking_data_frame happy_87, quiet 30); (NotJson, quiet 31)])
       = set_logContainer l gaze_only_session.
Proof.
  split; [reflexivity |].
  apply (frames_outside_tracking_touch_only_the_log
           [(tracking_data_frame happy_87, quiet 30); (NotJson, quiet 31)]
           gaze_only_session).
  reflexivity.
Defined.

(** *** Frames of the wrong shape while tracking *)

(** X5. While tracking, a frame whose gaze section is truthy but whose
    [GazeX] or [GazeY] is not a number makes [handleTrackingData] throw a
    TypeError after [state.gazeData] has been overwritten: no gaze point
    is stored, and the emotion section of the same frame is never looked
    at. *)
Theorem malformed_gaze_section_loses_the_frame :
  forall (s : State) (data gz vx vy : value) (env : Env),
    isTracking s = true ->
    get data "gaze" = Some gz ->
    truthy gz = true ->
    get gz "GazeX" = Some vx ->
    get gz "GazeY" = Some vy ->
    is_number vx && is_number vy = false ->
    handleTrackingData data env s = Threw TypeError (set_gazeData (vx, vy) s)
    /\ sessionData (final_state (handleTrackingData data env s)) = sessionData s.
Proof.
  intros s data gz vx vy env Htracking Hgaze Htruthy Hx Hy Hnum.
  assert (Hrun : handleTrackingData data env s
                 = Threw TypeError (set_gazeData (vx, vy) s)).
  { unfold handleTrackingData, bind, read, prop.
    rewrite Htracking. cbn [negb]. rewrite Hgaze. cbv beta iota delta [ret].
    rewrite Htruthy, Hx. cbv beta iota. rewrite Hy. cbv beta iota delta [update].
    destruct vx; cbn [toFixed throw ret]; try reflexivity.
    destruct vy; cbn [toFixed throw ret]; try reflexivity.
    discriminate Hnum. }
  rewrite Hrun. split; reflexivity.
Qed.

(** X6. While tracking, a frame with a well-formed gaze section and an
    emotion section whose label is not a string throws a TypeError only
    after the gaze point has been stored and [state.currentEmotions] has
    been overwritten: the gaze point stays in the session, no emotion
    entry is added. *)
Theorem gaze_is_kept_when_emotion_section_is_malformed :
  forall (s : State) (data emo lbl scores : value) (g : GazeSection) (env : Env),
    isTracking s = true ->
    get data "gaze" = Some (gaze_value g) ->
    get data "emotion" = Some emo ->
    truthy emo = true ->
    get emo "emotion" = Some lbl ->
    get emo "emotion_scores" = Some scores ->
    is_str lbl = false ->
    handleTrackingData data env s
    = Threw TypeError
        (set_currentEmotions scores
           (push_gazePoint (mkGazePoint (GazeX g) (GazeY g) (now_gaze env))
              (set_gazeData (Number (GazeX g), Number (GazeY g)) s))).
Proof.
  intros s data emo lbl scores g env Htracking Hgaze Hemo Htruthy Hlbl Hscores Hstr.
  destruct (get_total emo "emotion" "confidence" lbl Hlbl) as [c Hc].
  unfold handleTrackingData, bind, read, prop.
  rewrite Htracking. cbn [negb]. rewrite Hgaze. cbv beta iota delta [ret].
  cbn [truthy gaze_value get assoc String.eqb Ascii.eqb Bool.eqb toFixed].
  cbv beta iota delta [ret update].
  rewrite Hemo. cbv beta iota. rewrite Htruthy, Hlbl. cbv beta iota.
  rewrite Hscores. cbv beta iota. rewrite Hc. cbv beta iota zeta.
  destruct lbl; cbn [charAt_slice throw]; try reflexivity.
  discriminate Hstr.
Qed.

Lemma malformed_gaze_section_loses_the_frame_witness :
  handleTrackingData
    (Obj [("gaze", Obj [("GazeX", Str "0.5"); ("GazeY", Number (2 # 5)%Q)]);
          ("emotion", emotion_value (mkEmotionSection "happy" [] None))])
    (quiet 10) tracking_state
  = Threw TypeError
      (set_gazeData (Str "0.5", Number (2 # 5)%Q) tracking_state).
Proof.
  apply (malformed_gaze_section_loses_the_frame tracking_state
           (Obj [("gaze", Obj [("GazeX", Str "0.5"); ("GazeY", Number (2 # 5)%Q)]);
                 ("emotion", emotion_value (mkEmotionSection "happy" [] None))])
           (Obj [("GazeX", Str "0.5"); ("GazeY", Number (2 # 5)%Q)])
           (Str "0.5") (Number (2 # 5)%Q) (quiet 10));
    reflexivity.
Defined.

Lemma gaze_is_kept_when_emotion_section_is_malformed_witness :
  gazePoints
    (sessionData
       (final_state
          (handleTrackingData
             (Obj [("gaze", gaze_value (mkGazeSection (1 # 2)%Q (2 # 5)%Q));
                   ("emotion", Obj [("emotion", Number (3 # 1)%Q)])])
             (quiet 10) tracking_state)))
  = [mkGazePoint (1 # 2)%Q (2 # 5)%Q 10%Z].
Proof.
  rewrite (gaze_is_kept_when_emotion_section_is_malformed tracking_state
             (Obj [("gaze", gaze_value (mkGazeSection (1 # 2)%Q (2 # 5)%Q));
                   ("emotion", Obj [("emotion", Number (3 # 1)%Q)])])
             (Obj [("emotion", Number (3 # 1)%Q)])
             (Number (3 # 1)%Q) Undefined
             (mkGazeSection (1 # 2)%Q (2 # 5)%Q) (quiet 10));
    reflexivity.
Defined.

(** *** A whole session *)

Lemma deliver_all_control (fs : list (Frame * Env)) :
  forall s : State,
    let r := fst (deliver_all s fs) in
    isTracking r = isTracking s
    /\ wsConnection r = wsConnection s
    /\ buttons r = buttons s
    /\ sent r = sent s
    /\ exports r = exports s
    /\ startTime (sessionData r) = startTime (sessionData s).
Proof.
  induction fs as [| [f env] fs IH]; intros s; cbv zeta.
  - repeat split.
  - rewrite deliver_all_cons. cbn [fst].
    destruct (grows_onmessage f env s) as (H1 & _ & H2 & H3 & H4 & H5 & H6 & _).
    specialize (IH (final_state (onmessage f env s))). cbv zeta in IH.
    destruct IH as (I1 & I2 & I3 & I4 & I5 & I6).
    repeat split; congruence.
Qed.

Lemma stopTracking_sessionData (s : State) :
  sessionData (stopTracking s) = sessionData s.
Proof.
  unfold stopTracking. destruct (isTracking s); cbn [negb]; [| reflexivity].
  destruct (connection_open _); reflexivity.
Qed.

Lemma stopTracking_exports (s : State) : exports (stopTracking s) = exports s.
Proof.
  unfold stopTracking. destruct (isTracking s); cbn [negb]; [| reflexivity].
  destruct (connection_open _); reflexivity.
Qed.

Lemma stopTracking_tracking (s : State) :
  isTracking s = true ->
  export_disabled (buttons (stopTracking s)) = false
  /\ start_disabled (buttons (stopTracking s)) = false
  /\ stop_disabled (buttons (stopTracking s)) = true
  /\ calibrate_disabled (buttons (stopTracking s)) = true.
Proof.
  intros Ht. unfold stopTracking. rewrite Ht. cbn [negb].
  destruct (connection_open _); repeat split.
Qed.

Lemma connection_open_ws (s s' : State) :
  wsConnection s' = wsConnection s -> connection_open s' = connection_open s.
Proof. unfold connection_open. intros ->. reflexivity. Qed.

Lemma exportData_frame (now_end now_summary : Z) (api : bool) (s : State) :
  sessionData (exportData now_end now_summary api s) = sessionData s
  /\ isTracking (exportData now_end now_summary api s) = isTracking s
  /\ buttons (exportData now_end now_summary api s) = buttons s
  /\ sent (exportData now_end now_summary api s) = sent s
  /\ wsConnection (exportData now_end now_summary api s) = wsConnection s.
Proof.
  unfold exportData.
  destruct ((length (emotions (sessionData s)) =? 0)
            && (length (gazePoints (sessionData s)) =? 0))%nat;
    [repeat split |].
  destruct api; repeat split.
Qed.

Lemma exportData_artifact (now_end now_summary : Z) (api : bool) (s : State) :
  (stored_samples s =? 0)%nat = false ->
  exists k,
    exports (exportData now_end now_summary api s) = exports s ++ [k]
    /\ sessionId (exported k) = startTime (sessionData s)
    /\ endTimeISO (exported k) = now_end
    /\ exported_emotions (exported k) = emotions (sessionData s)
    /\ exported_gazePoints (exported k) = gazePoints (sessionData s).
Proof.
  intros Hne. unfold exportData.
  assert (Hcond : ((length (emotions (sessionData s)) =? 0)
                   && (length (gazePoints (sessionData s)) =? 0))%nat = false).
  { unfold stored_samples in Hne. apply Nat.eqb_neq in Hne.
    apply andb_false_iff.
    destruct (length (emotions (sessionData s))) eqn:He.
    - right. apply Nat.eqb_neq. lia.
    - left. reflexivity. }
  rewrite Hcond. destruct api; eexists; repeat split.
Qed.

Lemma exportData_nothing (now_end now_summary : Z) (api : bool) (s : State) :
  (stored_samples s =? 0)%nat = true ->
  exports (exportData now_end now_summary api s) = exports s.
Proof.
  intros He. unfold exportData. apply Nat.eqb_eq in He. unfold stored_samples in He.
  assert (H1 : length (emotions (sessionData s)) = 0) by lia.
  assert (H2 : length (gazePoints (sessionData s)) = 0) by lia.
  rewrite H1, H2. reflexivity.
Qed.

(** X8. [exportData] never changes the session, the tracking flag, the
    buttons, the channel or the socket. Exporting twice in a row gives
    nothing for a session without samples and otherwise two artifacts
    with the same [sessionId] and the same samples, those of the
    session. *)
Theorem export_is_read_only_and_repeatable :
  forall (s : State) (now_end now_summary now_end' now_summary' : Z) (api api' : bool),
    let s1 := exportData now_end now_summary api s in
    let s2 := exportData now_end' now_summary' api' s1 in
    sessionData s2 = sessionData s
    /\ isTracking s2 = isTracking s
    /\ buttons s2 = buttons s
    /\ sent s2 = sent s
    /\ wsConnection s2 = wsConnection s
    /\ if (stored_samples s =? 0)%nat
       then exports s2 = exports s
       else exists k1 k2,
              exports s2 = exports s ++ [k1; k2]
              /\ sessionId (exported k1) = startTime (sessionData s)
              /\ exported_emotions (exported k1) = emotions (sessionData s)
              /\ exported_gazePoints (exported k1) = gazePoints (sessionData s)
              /\ sessionId (exported k2) = sessionId (exported k1)
              /\ exported_emotions (exported k2) = exported_emotions (exported k1)
              /\ exported_gazePoints (exported k2) = exported_gazePoints (exported k1).
Proof.
  intros s ne ns ne' ns' api api'. cbv zeta.
  destruct (exportData_frame ne ns api s) as (F1 & F2 & F3 & F4 & F5).
  destruct (exportData_frame ne' ns' api' (exportData ne ns api s))
    as (G1 & G2 & G3 & G4 & G5).
  repeat (split; [congruence |]).
  assert (Hsame : stored_samples (exportData ne ns api s) = stored_samples s).
  { unfold stored_samples. rewrite F1. reflexivity. }
  destruct (stored_samples s =? 0)%nat eqn:Hempty.
  - rewrite exportData_nothing by (rewrite Hsame; exact Hempty).
    apply exportData_nothing, Hempty.
  - destruct (exportData_artifact ne ns api s Hempty) as (k1 & E1 & A1 & _ & B1 & C1).
    assert (Hempty' : (stored_samples (exportData ne ns api s) =? 0)%nat = false)
      by (rewrite Hsame; exact Hempty).
    destruct (exportData_artifact ne' ns' api' _ Hempty') as (k2 & E2 & A2 & _ & B2 & C2).
    exists k1, k2. rewrite E2, E1, <- app_assoc. cbn [app].
    repeat split; congruence.
Qed.

Lemma startTracking_open (now : Z) (media : bool) (s : State) :
  connection_open s = true ->
  let s' := startTracking now media s in
  isTracking s' = true
  /\ sessionData s' = mkSessionData (Some now) [] []
  /\ sent s' = sent s ++ [Obj [("command", Str "start_tracking")]]
  /\ wsConnection s' = wsConnection s
  /\ exports s' = exports s.
Proof.
  intros Hopen. cbv zeta. unfold startTracking. rewrite Hopen. cbn [negb].
  destruct media; repeat split.
Qed.

(** X7. Start on an open connection, frames in the wire format with at
    least one section, stop, export: exactly one artifact is produced, its
    [sessionId] is the start time, and its gaze and emotion sequences are
    exactly the sections of those frames in receipt order, whatever the
    session held before the start. One [start_tracking] and one
    [stop_tracking] were written to the channel, tracking is off and the
    export button is enabled. *)
Theorem session_round_trip :
  forall (s : State) (now now_end now_summary : Z) (media api : bool)
         (fs : list (TrackingData * Env)),
    connection_open s = true ->
    (list_sum (map (fun fe => sections (fst fe)) fs) =? 0)%nat = false ->
    let s1 := startTracking now media s in
    let s2 := fst (deliver_all s1 (map framed fs)) in
    let s3 := stopTracking s2 in
    let s4 := exportData now_end now_summary api s3 in
    isTracking s4 = false
    /\ export_disabled (buttons s4) = false
    /\ sent s4 = sent s ++ [Obj [("command", Str "start_tracking")];
                            Obj [("command", Str "stop_tracking")]]
    /\ exists k,
         exports s4 = exports s ++ [k]
         /\ sessionId (exported k) = Some now
         /\ endTimeISO (exported k) = now_end
         /\ exported_gazePoints (exported k) = flat_map gaze_sample fs
         /\ exported_emotions (exported k) = flat_map emotion_sample fs.
Proof.
  intros s now ne ns media api fs Hopen Hsome. cbv zeta.
  destruct (startTracking_open now media s Hopen) as (T1 & D1 & S1 & W1 & X1).
  set (s1 := startTracking now media s) in *.
  destruct (deliver_all_tracking fs s1 T1) as (_ & T2 & G2 & E2).
  destruct (deliver_all_control (map framed fs) s1) as (_ & W2 & _ & S2 & X2 & St2).
  set (s2 := fst (deliver_all s1 (map framed fs))) in *.
  rewrite D1 in G2, E2, St2. cbn [gazePoints emotions startTime] in G2, E2, St2.
  rewrite app_nil_l in G2, E2.
  assert (Hopen2 : connection_open s2 = true).
  { rewrite (connection_open_ws s s2); [exact Hopen | congruence]. }
  assert (Hsent3 : sent (stopTracking s2)
                   = sent s2 ++ [Obj [("command", Str "stop_tracking")]]).
  { rewrite stopTracking_sent, T2, Hopen2. reflexivity. }
  destruct (stopTracking_tracking s2 T2) as (B3 & _).
  destruct (exportData_frame ne ns api (stopTracking s2)) as (F1 & F2 & F3 & F4 & F5).
  assert (Hstored : (stored_samples (stopTracking s2) =? 0)%nat = false).
  { unfold stored_samples. rewrite stopTracking_sessionData, G2, E2.
    rewrite length_samples. exact Hsome. }
  destruct (exportData_artifact ne ns api (stopTracking s2) Hstored)
    as (k & K1 & K2 & K3 & K4 & K5).
  rewrite stopTracking_sessionData in K2, K4, K5.
  rewrite stopTracking_exports in K1.
  split.
  { rewrite F2. unfold stopTracking. rewrite T2. reflexivity. }
  split; [rewrite F3; exact B3 |].
  split.
  { rewrite F4, Hsent3, S2, S1, <- app_assoc. reflexivity. }
  exists k. rewrite K1, X2, X1. repeat split; congruence.
Qed.

Lemma session_round_trip_witness :
  connection_open connected_state = true
  /\ sent (exportData 20 21 true
             (stopTracking
                (fst (deliver_all (startTracking 5 true connected_state)
                        (map framed [(gaze_only, quiet 10); (happy_87, quiet 11)])))))
     = sent connected_state
       ++ [Obj [("command", Str "start_tracking")];
           Obj [("command", Str "stop_tracking")]].
Proof.
  split; [reflexivity |].
  apply (session_round_trip connected_state 5%Z 20%Z 21%Z true true
           [(gaze_only, quiet 10); (happy_87, quiet 11)]);
    reflexivity.
Defined.

(** *** Invariants of the event loop *)

Lemma run_invariant (P : State -> Prop) :
  (forall s e, P s -> P (step s e)) ->
  forall (events : list Event) (s : State), P s -> P (run s events).
Proof.
  intros Hstep events. unfold run.
  induction events as [| e events IH]; intros s Hs; [exact Hs |].
  cbn [fold_left]. apply IH, Hstep, Hs.
Qed.

Lemma step_log_bounded (s : State) (e : Event) :
  length (logContainer s) <= 100 -> length (logContainer (step s e)) <= 100.
Proof.
  intros Hs. destruct e; cbn [step].
  - apply (addLogEntry_bounded _ s).
  - destruct (grows_onmessage frame env s) as (_ & Hl & _). apply Hl, Hs.
  - apply (addLogEntry_bounded _ s).
  - apply (addLogEntry_bounded _ s).
  - unfold readyStateChange. destruct (wsConnection s); exact Hs.
  - unfold startTracking. destruct (negb (connection_open s)).
    + apply addLogEntry_bounded.
    + unfold startVideo. destruct getUserMedia.
      * apply (addLogEntry_bounded _ s).
      * apply addLogEntry_bounded.
  - unfold stopTracking. destruct (negb (isTracking s)); [exact Hs |].
    apply addLogEntry_bounded.
  - unfold calibrateGaze. destruct (negb (isTracking s)); [exact Hs |].
    destruct (connection_open _); apply (addLogEntry_bounded _ s).
  - unfold exportData.
    destruct ((length (emotions (sessionData s)) =? 0)
              && (length (gazePoints (sessionData s)) =? 0))%nat.
    + apply addLogEntry_bounded.
    + destruct api; apply addLogEntry_bounded.
  - apply addLogEntry_bounded.
  - apply addLogEntry_bounded.
Qed.

(** X2. Once the page is loaded, whatever callbacks run and in whatever
    order, the log container never holds more than a hundred entries. *)
Theorem log_never_exceeds_hundred_entries :
  forall (btns : Buttons) (failure : option string) (events : list Event),
    length (logContainer (run (booted btns failure) events)) <= 100.
Proof.
  intros btns failure events.
  apply (run_invariant (fun s => length (logContainer s) <= 100)).
  - intros s e. apply step_log_bounded.
  - apply addLogEntry_bounded.
Qed.

(** Commands on the channel. *)

Lemma commands_sent_app (name : string) (s s' : State) (l : list value) :
  sent s' = sent s ++ l ->
  commands_sent name s'
  = commands_sent name s + length (filter (is_command name) l).
Proof.
  unfold commands_sent. intros ->. rewrite filter_app, length_app. reflexivity.
Qed.

Lemma protocol_same (s s' : State) :
  sent s' = sent s -> isTracking s' = isTracking s -> protocol_ok s -> protocol_ok s'.
Proof.
  unfold protocol_ok, commands_sent. intros -> ->. exact (fun H => H).
Qed.

Lemma protocol_idle (s s' : State) :
  sent s' = sent s -> isTracking s' = false -> protocol_ok s -> protocol_ok s'.
Proof.
  unfold protocol_ok, commands_sent. intros -> ->. intros [H1 H2].
  split; [cbn [b2n]; lia | exact H2].
Qed.

Lemma stopTracking_idle (s : State) : isTracking (stopTracking s) = false.
Proof.
  unfold stopTracking. destruct (isTracking s) eqn:E; [| exact E].
  cbn [negb]. reflexivity.
Qed.

Lemma calibrateGaze_tracking (s : State) :
  isTracking (calibrateGaze s) = isTracking s.
Proof.
  unfold calibrateGaze. destruct (isTracking s) eqn:E; cbn [negb]; [| exact E].
  destruct (connection_open _); exact E.
Qed.

Lemma step_protocol_ok (s : State) (e : Event) : protocol_ok s -> protocol_ok (step s e).
Proof.
  intros Hs. destruct e; cbn [step].
  - apply (protocol_same s); [reflexivity | reflexivity | exact Hs].
  - destruct (grows_onmessage frame env s) as (Ht & _ & _ & _ & Hsent & _).
    apply (protocol_same s); assumption.
  - apply (protocol_idle s); [reflexivity | reflexivity | exact Hs].
  - apply (protocol_same s); [reflexivity | reflexivity | exact Hs].
  - apply (protocol_same s); [| | exact Hs];
      unfold readyStateChange; destruct (wsConnection s); reflexivity.
  - destruct (connection_open s) eqn:Hopen.
    + destruct (startTracking_open now getUserMedia s Hopen) as (Ht & _ & Hsent & _).
      destruct Hs as [H1 H2]. unfold protocol_ok.
      rewrite !(commands_sent_app _ s _ _ Hsent), Ht.
      cbn [filter is_command String.eqb Ascii.eqb Bool.eqb andb length b2n].
      split; [| lia]. destruct (isTracking s); cbn [b2n] in H1; lia.
    + rewrite (startTracking_not_open now getUserMedia s Hopen).
      apply (protocol_same s); [reflexivity | reflexivity | exact Hs].
  - destruct Hs as [H1 H2]. unfold protocol_ok.
    pose proof (stopTracking_sent s) as Hsent.
    rewrite stopTracking_idle. cbn [b2n].
    destruct (isTracking s && connection_open s) eqn:Hboth.
    + rewrite !(commands_sent_app _ s _ _ Hsent).
      cbn [filter is_command String.eqb Ascii.eqb Bool.eqb andb length].
      apply andb_prop in Hboth. destruct Hboth as [Ht _]. rewrite Ht in H1.
      cbn [b2n] in H1. split; lia.
    + unfold commands_sent in *. rewrite Hsent. split; [lia | exact H2].
  - destruct Hs as [H1 H2]. unfold protocol_ok.
    pose proof (calibrateGaze_sent s) as Hsent.
    rewrite calibrateGaze_tracking.
    destruct (isTracking s && connection_open s) eqn:Hboth.
    + rewrite !(commands_sent_app _ s _ _ Hsent).
      cbn [filter is_command String.eqb Ascii.eqb Bool.eqb andb length].
      apply andb_prop in Hboth. destruct Hboth as [Ht _]. rewrite Ht in H1.
      cbn [b2n] in H1. rewrite Ht. cbn [b2n]. split; lia.
    + unfold commands_sent in *. rewrite Hsent. split; [exact H1 | exact H2].
  - destruct (exportData_frame now_end now_summary api s) as (_ & Ht & _ & Hsent & _).
    apply (protocol_same s); assumption.
  - apply (protocol_same s); [reflexivity | reflexivity | exact Hs].
  - apply (protocol_same s); [reflexivity | reflexivity | exact Hs].
Qed.

(** X9. In every state the loaded page can reach, the [stop_tracking]
    commands written to the channel, plus one if tracking is on, do not
    outnumber the [start_tracking] commands, and no [calibrate] has been
    written unless a [start_tracking] has. *)
Theorem stop_and_calibrate_never_precede_start :
  forall (btns : Buttons) (failure : option string) (events : list Event),
    let s := run (booted btns failure) events in
    commands_sent "stop_tracking" s + (if isTracking s then 1 else 0)
    <= commands_sent "start_tracking" s
    /\ (commands_sent "start_tracking" s = 0 -> commands_sent "calibrate" s = 0).
Proof.
  intros btns failure events.
  apply (run_invariant protocol_ok).
  - intros s e. apply step_protocol_ok.
  - unfold protocol_ok, booted, initApp, connectWebSocket.
    destruct failure; cbn; split; auto.
Qed.

Lemma stop_and_calibrate_never_precede_start_witness :
  commands_sent "start_tracking"
    (run (booted all_disabled None) [ClickCalibrate; ClickStop; SocketClose]) = 0
  /\ commands_sent "calibrate"
       (run (booted all_disabled None) [ClickCalibrate; ClickStop; SocketClose]) = 0.
Proof.
  split; [reflexivity |].
  apply (stop_and_calibrate_never_precede_start all_disabled None
           [ClickCalibrate; ClickStop; SocketClose]).
  reflexivity.
Defined.

(** While tracking. *)

Lemma tracking_ok_same (s s' : State) :
  isTracking s' = isTracking s ->
  (stop_disabled (buttons s') = stop_disabled (buttons s)
   /\ calibrate_disabled (buttons s') = calibrate_disabled (buttons s)) ->
  (wsConnection s <> None -> wsConnection s' <> None) ->
  sessionData s' = sessionData s ->
  tracking_ok s -> tracking_ok s'.
Proof.
  unfold tracking_ok, stored_samples. intros -> [-> ->] Hw -> [H1 H2].
  split; [| exact H2]. intros Ht. destruct (H1 Ht) as (A & B & C & D). auto.
Qed.

Lemma tracking_ok_idle (s s' : State) :
  isTracking s' = false ->
  sessionData s' = sessionData s ->
  tracking_ok s -> tracking_ok s'.
Proof.
  unfold tracking_ok, stored_samples. intros -> -> [H1 H2].
  split; [discriminate | exact H2].
Qed.

Lemma step_tracking_ok (s : State) (e : Event) : tracking_ok s -> tracking_ok (step s e).
Proof.
  intros Hs.
  assert (Hlog : forall x, tracking_ok (addLogEntry x s)).
  { intros x. apply (tracking_ok_same s);
      [reflexivity | split; reflexivity | exact (fun H => H) | reflexivity | exact Hs]. }
  destruct e; cbn [step].
  - apply (tracking_ok_same s);
      [reflexivity | split; reflexivity | exact (fun H => H) | reflexivity | exact Hs].
  - destruct (isTracking s) eqn:Ht.
    + destruct (grows_onmessage frame env s)
        as (T & _ & W & B & _ & _ & St & _).
      destruct Hs as [H1 _]. destruct (H1 Ht) as (A & C & D & E).
      unfold tracking_ok. rewrite T, B, W, St. split; auto.
    + destruct (onmessage_not_tracking frame env s Ht) as [l Hl]. rewrite Hl.
      apply (tracking_ok_same s);
        [reflexivity | split; reflexivity | exact (fun H => H) | reflexivity | exact Hs].
  - apply (tracking_ok_idle s); [reflexivity | reflexivity | exact Hs].
  - apply Hlog.
  - unfold readyStateChange. destruct (wsConnection s) eqn:Hw; [| exact Hs].
    apply (tracking_ok_same s);
      [reflexivity | split; reflexivity | intros _; discriminate | reflexivity | exact Hs].
  - destruct (connection_open s) eqn:Hopen.
    + assert (Hws : wsConnection s <> None).
      { unfold connection_open in Hopen. destruct (wsConnection s); discriminate. }
      unfold tracking_ok, stored_samples, startTracking. rewrite Hopen. cbn [negb].
      destruct getUserMedia; cbn;
        (split; [intros _; repeat split; try assumption; discriminate
                | intros H; contradiction]).
    + rewrite (startTracking_not_open now getUserMedia s Hopen). apply Hlog.
  - apply (tracking_ok_idle s);
      [apply stopTracking_idle | apply stopTracking_sessionData | exact Hs].
  - unfold calibrateGaze. destruct (negb (isTracking s)); [exact Hs |].
    destruct (connection_open _);
      (apply (tracking_ok_same s);
       [reflexivity | split; reflexivity | exact (fun H => H) | reflexivity | exact Hs]).
  - destruct (exportData_frame now_end now_summary api s) as (D & T & B & _ & W).
    apply (tracking_ok_same s); try assumption;
      [rewrite B; split; reflexivity | rewrite W; exact (fun H => H)].
  - apply Hlog.
  - apply Hlog.
Qed.

(** X10. In every state the loaded page can reach: while tracking is on,
    the stop and calibrate buttons are enabled, a socket exists and the
    session has a start time; and a session that holds samples has a
    start time. *)
Theorem tracking_implies_stop_enabled_and_session_started :
  forall (btns : Buttons) (failure : option string) (events : list Event),
    let s := run (booted btns failure) events in
    (isTracking s = true ->
     stop_disabled (buttons s) = false
     /\ calibrate_disabled (buttons s) = false
     /\ wsConnection s <> None
     /\ startTime (sessionData s) <> None)
    /\ (stored_samples s <> 0 -> startTime (sessionData s) <> None).
Proof.
  intros btns failure events.
  apply (run_invariant tracking_ok).
  - intros s e. apply step_tracking_ok.
  - unfold tracking_ok, booted, initApp, connectWebSocket, stored_samples.
    destruct failure; cbn; split; intros H; try discriminate H; contradiction.
Qed.

Lemma tracking_implies_stop_enabled_and_session_started_witness :
  isTracking
    (run (booted all_disabled None)
       [ReadyStateChange OPEN; SocketOpen; ClickStart 0 true]) = true
  /\ stop_disabled
       (buttons
          (run (booted all_disabled None)
             [ReadyStateChange OPEN; SocketOpen; ClickStart 0 true])) = false.
Proof.
  split; [reflexivity |].
  apply (tracking_implies_stop_enabled_and_session_started all_disabled None
           [ReadyStateChange OPEN; SocketOpen; ClickStart 0%Z true]).
  reflexivity.
Defined.

(** The export button. *)

Lemma step_export_enabled (s : State) (e : Event) :
  export_disabled (buttons s) = false ->
  export_disabled (buttons (step s e)) = false.
Proof.
  intros Hs. destruct e; cbn [step]; try exact Hs.
  - destruct (grows_onmessage frame env s) as (_ & _ & _ & B & _). rewrite B. exact Hs.
  - unfold readyStateChange. destruct (wsConnection s); exact Hs.
  - unfold startTracking. destruct (negb (connection_open s)); [exact Hs |].
    destruct getUserMedia; exact Hs.
  - unfold stopTracking. destruct (negb (isTracking s)); [exact Hs |].
    destruct (connection_open _); reflexivity.
  - unfold calibrateGaze. destruct (negb (isTracking s)); [exact Hs |].
    destruct (connection_open _); exact Hs.
  - destruct (exportData_frame now_end now_summary api s) as (_ & _ & B & _).
    rewrite B. exact Hs.
Qed.

(** X11. Once a stop has been clicked while tracking, the export button is
    enabled and no later callback disables it again. *)
Theorem export_stays_enabled_after_a_stop :
  forall (s : State) (events : list Event),
    isTracking s = true ->
    export_disabled (buttons (run s (ClickStop :: events))) = false.
Proof.
  intros s events Ht.
  change (run s (ClickStop :: events)) with (run (stopTracking s) events).
  apply (run_invariant (fun t => export_disabled (buttons t) = false)).
  - intros t e. apply step_export_enabled.
  - apply stopTracking_tracking, Ht.
Qed.

Lemma export_stays_enabled_after_a_stop_witness :
  isTracking tracking_state = true
  /\ export_disabled
       (buttons (run tracking_state
                   [ClickStop; SocketError; SocketClose; ClickStart 40 true]))
     = false.
Proof.
  split; [reflexivity |].
  apply (export_stays_enabled_after_a_stop tracking_state
           [SocketError; SocketClose; ClickStart 40%Z true]).
  reflexivity.
Defined.

(** What changes the recorded session. *)

(** X12. The recorded session changes only through a frame received while
    tracking or a start clicked with an open connection: every other
    callback, and these two outside those conditions, leave
    [state.sessionData] as it was. *)
Theorem session_changes_only_by_frames_and_start :
  forall (s : State) (e : Event),
    may_change_session e s = false ->
    sessionData (step s e) = sessionData s.
Proof.
  intros s e He. destruct e; cbn [step may_change_session] in *; try reflexivity.
  - destruct (onmessage_not_tracking frame env s He) as [l Hl]. rewrite Hl. reflexivity.
  - unfold readyStateChange. destruct (wsConnection s); reflexivity.
  - rewrite (startTracking_not_open now getUserMedia s He). reflexivity.
  - apply stopTracking_sessionData.
  - unfold calibrateGaze. destruct (negb (isTracking s)); [reflexivity |].
    destruct (connection_open _); reflexivity.
  - apply exportData_frame.
Qed.

Lemma session_changes_only_by_frames_and_start_witness :
  may_change_session (ClickExport 20 21 true) gaze_only_session = false
  /\ sessionData (step gaze_only_session (ClickExport 20 21 true))
     = sessionData gaze_only_session.
Proof.
  split; [reflexivity |].
  apply (session_changes_only_by_frames_and_start gaze_only_session
           (ClickExport 20%Z 21%Z true)).
  reflexivity.
Defined.

(** *** The counts of the summary *)

Lemma list_sum_cons (n : nat) (l : list nat) : list_sum (n :: l) = n + list_sum l.
Proof. reflexivity. Qed.

Lemma sum_without (f : string -> nat) (k : string) (ks : list string) :
  NoDup ks ->
  list_sum (map f ks)
  = (if seen k ks then f k else 0) + list_sum (map f (filter (differs k) ks)).
Proof.
  induction 1 as [| a ks Hnotin Hnodup IH]; [reflexivity |].
  unfold seen. cbn [existsb map filter]. fold (seen k ks).
  rewrite list_sum_cons, IH. unfold differs at 2.
  destruct (String.eqb k a) eqn:Heq.
  - apply String.eqb_eq in Heq. subst a.
    rewrite String.eqb_refl. cbn [negb orb].
    apply not_seen_In in Hnotin. rewrite Hnotin. lia.
  - rewrite (String.eqb_sym a k), Heq. cbn [negb orb map].
    rewrite list_sum_cons. lia.
Qed.

Lemma occurrences_cons (l k : string) (ls : list string) :
  occurrences l (k :: ls) = occurrences l ls + (if String.eqb k l then 1 else 0).
Proof.
  unfold occurrences. cbn [count_occ].
  destruct (string_dec k l) as [-> | Hne].
  - rewrite String.eqb_refl. lia.
  - apply String.eqb_neq in Hne. rewrite Hne. lia.
Qed.

Lemma sum_of_occurrences (ls : list string) :
  list_sum (map (fun k => occurrences k ls) (first_seen ls)) = length ls.
Proof.
  induction ls as [| k rest IH]; [reflexivity |].
  cbn [first_seen map length]. rewrite list_sum_cons.
  rewrite occurrences_cons, String.eqb_refl.
  assert (Hrest : list_sum (map (fun l => occurrences l (k :: rest))
                              (filter (differs k) (first_seen rest)))
                  = list_sum (map (fun l => occurrences l rest)
                                (filter (differs k) (first_seen rest)))).
  { f_equal. apply map_ext_in. intros l Hl. apply filter_In in Hl.
    destruct Hl as [_ Hl]. apply differs_true in Hl.
    rewrite occurrences_cons.
    assert (Hkl : String.eqb k l = false) by (apply String.eqb_neq; congruence).
    rewrite Hkl. lia. }
  rewrite Hrest.
  pose proof (sum_without (fun l => occurrences l rest) k (first_seen rest)
                (NoDup_first_seen rest)) as Hsplit.
  rewrite IH in Hsplit. rewrite seen_first_seen in Hsplit.
  destruct (seen k rest) eqn:Hseen; [lia |].
  apply not_seen_In in Hseen. unfold occurrences in *.
  rewrite (proj1 (count_occ_not_In string_dec rest k) Hseen). lia.
Qed.

(** X13. For a session whose labels are ordinary names, [emotionCounts]
    has exactly one property per distinct label, holding the number of
    its occurrences, and these numbers add up to the number of emotion
    entries. *)
Theorem emotionCounts_hold_the_occurrences :
  forall (now : Z) (s : State),
    forallb ordinary (labels s) = true ->
    let counts := emotionCounts (generateSummary now s) in
    (forall l, assoc l counts
               = if seen l (labels s)
                 then Some (Count (occurrences l (labels s)))
                 else None)
    /\ NoDup (keys counts)
    /\ list_sum (map (fun kv => count_number (snd kv)) counts)
       = length (emotions (sessionData s)).
Proof.
  intros now s Hord. cbv zeta. unfold generateSummary.
  destruct (emotions (sessionData s)) as [| e es] eqn:He.
  - unfold labels. rewrite He. cbn. repeat split. constructor.
  - cbn [length Nat.eqb emotionCounts].
    rewrite count_emotions_labels.
    assert (Hl : labels s = map emotion (e :: es)) by (unfold labels; rewrite He; reflexivity).
    rewrite <- Hl. rewrite (fold_count_step _ Hord).
    split; [| split].
    + intros l. unfold counts_of. rewrite assoc_tabulate, seen_first_seen. reflexivity.
    + rewrite keys_counts_of. apply NoDup_first_seen.
    + unfold counts_of. rewrite map_map. cbn [snd count_number].
      rewrite sum_of_occurrences, Hl. apply length_map.
Qed.

Lemma emotionCounts_hold_the_occurrences_witness :
  forallb ordinary (labels happy_sad_session) = true
  /\ assoc "happy" (emotionCounts (generateSummary 20 happy_sad_session))
     = Some (Count 3).
Proof.
  split; [reflexivity |].
  rewrite (proj1 (emotionCounts_hold_the_occurrences 20%Z happy_sad_session
                    eq_refl) "happy").
  reflexivity.
Defined.

(** Labels that collide with members of [Object.prototype]. *)

Lemma assoc_not_numeric (obj : list (string * CountValue)) (k : string) (v : CountValue) :
  forallb not_numeric obj = true -> assoc k obj = Some v -> v = NotNumeric.
Proof.
  induction obj as [| [k' v'] obj IH]; [discriminate |].
  cbn [forallb assoc]. intros H. apply andb_prop in H. destruct H as [Hv Hobj].
  destruct (String.eqb k k').
  - intros Heq. injection Heq as <-. unfold not_numeric in Hv. cbn [snd] in Hv.
    destruct v'; [discriminate | reflexivity].
  - apply IH, Hobj.
Qed.

Lemma replace_or_append_not_numeric (obj : list (string * CountValue)) (k : string) :
  forallb not_numeric obj = true ->
  forallb not_numeric (replace_or_append k NotNumeric obj) = true.
Proof.
  induction obj as [| [k' v'] obj IH]; [reflexivity |].
  cbn [forallb replace_or_append]. intros H. apply andb_prop in H.
  destruct H as [Hv Hobj].
  destruct (String.eqb k k'); cbn [forallb].
  - rewrite Hobj. reflexivity.
  - rewrite Hv, (IH Hobj). reflexivity.
Qed.

Lemma count_step_inherited (obj : list (string * CountValue)) (l : string) :
  inherited l = true ->
  forallb not_numeric obj = true ->
  forallb not_numeric (count_step obj l) = true.
Proof.
  intros Hl Hobj. unfold count_step, assign, lookup.
  destruct (String.eqb l "__proto__"); [exact Hobj |].
  destruct (assoc l obj) as [v |] eqn:Hv.
  - rewrite (assoc_not_numeric obj l v Hobj Hv). cbn [incremented].
    apply replace_or_append_not_numeric, Hobj.
  - rewrite Hl. cbn [incremented]. apply replace_or_append_not_numeric, Hobj.
Qed.

Lemma fold_count_step_inherited (ls : list string) :
  forall obj,
    forallb inherited ls = true ->
    forallb not_numeric obj = true ->
    forallb not_numeric (fold_left count_step ls obj) = true.
Proof.
  induction ls as [| l ls IH]; intros obj Hls Hobj; [exact Hobj |].
  cbn [forallb] in Hls. apply andb_prop in Hls. destruct Hls as [Hl Hls].
  cbn [fold_left]. apply IH; [exact Hls |]. apply count_step_inherited; assumption.
Qed.

Lemma consider_not_numeric (obj : list (string * CountValue)) :
  forallb not_numeric obj = true ->
  forall (ks : list string) (acc : string * nat),
    fold_left (consider obj) ks acc = acc.
Proof.
  intros Hobj. induction ks as [| k ks IH]; intros [p m]; [reflexivity |].
  cbn [fold_left].
  assert (Hstep : consider obj (p, m) k = (p, m)).
  { unfold consider, lookup. destruct (assoc k obj) as [v |] eqn:Hv.
    - rewrite (assoc_not_numeric obj k v Hobj Hv). reflexivity.
    - destruct (inherited k); reflexivity. }
  rewrite Hstep. apply IH.
Qed.

(** X14. For a session whose labels are all names of [Object.prototype]
    members (such as "constructor"), [(emotionCounts[l] || 0) + 1]
    concatenates instead of counting: no count is numeric and the primary
    emotion is the loop's initial "neutral". *)
Theorem prototype_labels_are_never_primary :
  forall (now : Z) (s : State),
    emotions (sessionData s) <> [] ->
    forallb inherited (labels s) = true ->
    primaryEmotion (generateSummary now s) = "neutral"
    /\ (forall l v, assoc l (emotionCounts (generateSummary now s)) = Some v ->
                    v = NotNumeric).
Proof.
  intros now s Hne Hinh. unfold generateSummary.
  destruct (emotions (sessionData s)) as [| e es] eqn:He; [contradiction |].
  cbn [length Nat.eqb primaryEmotion emotionCounts].
  assert (Hl : labels s = map emotion (e :: es)) by (unfold labels; rewrite He; reflexivity).
  assert (Hall : forallb not_numeric (count_emotions (e :: es)) = true).
  { rewrite count_emotions_labels, <- Hl.
    apply fold_count_step_inherited; [exact Hinh | reflexivity]. }
  split.
  - unfold most_common. rewrite (consider_not_numeric _ Hall). reflexivity.
  - intros l v. apply assoc_not_numeric, Hall.
Qed.

Lemma prototype_labels_are_never_primary_witness :
  emotions (sessionData constructor_session) <> []
  /\ primaryEmotion (generateSummary 20 constructor_session) = "neutral".
Proof.
  assert (Hne : emotions (sessionData constructor_session) <> []) by discriminate.
  split; [exact Hne |].
  apply (prototype_labels_are_never_primary 20%Z constructor_session Hne).
  reflexivity.
Defined.

(** *** Timestamps *)

Lemma sorted_prepend_equal (t : Z) (xs ys : list Z) :
  (forall x, In x xs -> x = t) ->
  Forall (Z.le t) ys ->
  StronglySorted Z.le ys ->
  StronglySorted Z.le (xs ++ ys).
Proof.
  intros Hxs Hys Hsorted. induction xs as [| x xs IH]; [exact Hsorted |].
  cbn [app]. constructor.
  - apply IH. intros y Hy. apply Hxs. right. exact Hy.
  - rewrite (Hxs x (or_introl eq_refl)). apply Forall_app. split; [| exact Hys].
    apply Forall_forall. intros y Hy. rewrite (Hxs y (or_intror Hy)). apply Z.le_refl.
Qed.

Lemma sorted_flat_map {A B : Type} (f : A -> list B) (ta : A -> Z) (tb : B -> Z)
  (l : list A) :
  (forall a b, In b (f a) -> tb b = ta a) ->
  StronglySorted Z.le (map ta l) ->
  StronglySorted Z.le (map tb (flat_map f l)).
Proof.
  intros Hf. induction l as [| a l IH]; intros Hs; [constructor |].
  cbn [map] in Hs. apply StronglySorted_inv in Hs. destruct Hs as [Hs Hall].
  cbn [flat_map]. rewrite map_app.
  apply (sorted_prepend_equal (ta a)).
  - intros t Ht. apply in_map_iff in Ht. destruct Ht as (b & <- & Hb).
    apply Hf, Hb.
  - apply Forall_forall. intros t Ht. apply in_map_iff in Ht.
    destruct Ht as (b & <- & Hb). apply in_flat_map in Hb.
    destruct Hb as (a' & Ha' & Hb). rewrite (Hf a' b Hb).
    rewrite Forall_forall in Hall. apply Hall. apply in_map. exact Ha'.
  - apply IH, Hs.
Qed.

(** X15. Each sample carries the clock reading taken when it is pushed:
    starting from an empty session, if the clock readings of the frames
    do not decrease, the stored gaze points and the stored emotion
    entries are in non-decreasing timestamp order. *)
Theorem samples_are_in_clock_order :
  forall (s : State) (fs : list (TrackingData * Env)),
    isTracking s = true ->
    gazePoints (sessionData s) = [] ->
    emotions (sessionData s) = [] ->
    StronglySorted Z.le (map (fun fe => now_gaze (snd fe)) fs) ->
    StronglySorted Z.le (map (fun fe => now_emotion (snd fe)) fs) ->
    let r := fst (deliver_all s (map framed fs)) in
    StronglySorted Z.le (map timestamp (gazePoints (sessionData r)))
    /\ StronglySorted Z.le (map entry_timestamp (emotions (sessionData r))).
Proof.
  intros s fs Ht Hg He Hsg Hse. cbv zeta.
  destruct (deliver_all_tracking fs s Ht) as (_ & _ & G & E).
  rewrite G, E, Hg, He, !app_nil_l. split.
  - apply (sorted_flat_map gaze_sample (fun fe => now_gaze (snd fe)) timestamp);
      [| exact Hsg].
    intros fe b Hb. unfold gaze_sample in Hb.
    destruct (gaze (fst fe)); [| contradiction].
    destruct Hb as [<- | []]. reflexivity.
  - apply (sorted_flat_map emotion_sample (fun fe => now_emotion (snd fe))
             entry_timestamp); [| exact Hse].
    intros fe b Hb. unfold emotion_sample in Hb.
    destruct (emotion_section (fst fe)); [| contradiction].
    destruct Hb as [<- | []]. reflexivity.
Qed.

Lemma samples_are_in_clock_order_witness :
  isTracking tracking_state = true
  /\ StronglySorted Z.le
       (map timestamp
          (gazePoints
             (sessionData
                (fst (deliver_all tracking_state
                        (map framed [(gaze_only, quiet 10); (gaze_only, quiet 12)])))))).
Proof.
  split; [reflexivity |].
  apply (samples_are_in_clock_order tracking_state
           [(gaze_only, quiet 10); (gaze_only, quiet 12)]);
    try reflexivity;
    repeat (constructor; try (cbv; discriminate)).
Defined.

End RendererProps.

(* ------------------------------------------------------------------ *)
(** ** Properties of the worker supervisor *)

Module SupervisorProps.

Import Supervisor Scenarios.

Lemma termination_attempts_emit (e : Effect) (s : State) :
  termination_attempts (emit e s)
  = termination_attempts s + (if is_termination e then 1 else 0).
Proof.
  unfold termination_attempts, emit. cbn [effects].
  rewrite filter_app, length_app. cbn [filter].
  destruct (is_termination e); reflexivity.
Qed.

Lemma stopPythonBackend_keeps_handle (platform : string) (s : State) :
  pythonProcess (stopPythonBackend platform s) = pythonProcess s.
Proof.
  unfold stopPythonBackend.
  destruct (pythonProcess s) eqn:Hp; [| exact Hp].
  destruct (String.eqb platform "win32"); exact Hp.
Qed.

Lemma stopPythonBackend_attempts (platform : string) (s : State) :
  termination_attempts (stopPythonBackend platform s)
  = termination_attempts s + held s.
Proof.
  unfold stopPythonBackend, held.
  destruct (pythonProcess s) as [p |]; [| lia].
  destruct (String.eqb platform "win32");
    rewrite !termination_attempts_emit; cbn [is_termination]; lia.
Qed.







(** *** Traces of the supervisor *)

Lemma targets_emit (e : Effect) (s : State) :
  targets (emit e s) = targets s ++ target e.
Proof.
  unfold targets, emit. cbn [effects]. rewrite flat_map_app. cbn [flat_map].
  rewrite app_nil_r. reflexivity.
Qed.

Lemma targets_set_pythonProcess (p : option ChildProcess) (s : State) :
  targets (set_pythonProcess p s) = targets s.
Proof. reflexivity. Qed.

Lemma targets_start (platform : string) (spawned : option (option Z)) (s : State) :
  targets (startPythonBackend platform spawned s) = targets s.
Proof.
  unfold startPythonBackend.
  destruct spawned; rewrite ?targets_set_pythonProcess, !targets_emit;
    cbn [target]; rewrite !app_nil_r; reflexivity.
Qed.

Lemma stop_targets (platform : string) (s : State) :
  targets (stopPythonBackend platform s) = targets s ++ held_pid s.
Proof.
  unfold stopPythonBackend, held_pid. destruct (pythonProcess s) as [p |].
  - cbv zeta. destruct (String.eqb platform "win32"); rewrite !targets_emit;
      cbn [target]; rewrite app_nil_r; reflexivity.
  - rewrite app_nil_r. reflexivity.
Qed.

Lemma step_targets (platform : string) (s : State) (e : Event) (t : option Z) :
  In t (targets (step platform s e)) -> In t (targets s) \/ In t (held_pid s).
Proof.
  destruct e; cbn [step on_window_all_closed fst]; unfold createWindow, on_will_quit.
  - rewrite targets_start. auto.
  - rewrite stop_targets. intros H. apply in_app_or in H. exact H.
  - rewrite stop_targets. intros H. apply in_app_or in H. exact H.
  - unfold on_close. rewrite targets_set_pythonProcess, targets_emit.
    cbn [target]. rewrite app_nil_r. auto.
Qed.

Lemma step_held (platform : string) (s : State) (e : Event) (t : option Z) :
  In t (held_pid (step platform s e)) -> In t (held_pid s) \/ In t (spawned_pid e).
Proof.
  destruct e; cbn [step on_window_all_closed fst spawned_pid];
    unfold createWindow, on_will_quit.
  - unfold startPythonBackend. destruct spawned as [p |]; auto.
  - unfold held_pid. rewrite stopPythonBackend_keeps_handle. auto.
  - unfold held_pid. rewrite stopPythonBackend_keeps_handle. auto.
  - intros [].
Qed.

Lemma run_known (platform : string) (events : list Event) :
  forall (s : State) (t : option Z),
    In t (targets (run platform s events)) \/ In t (held_pid (run platform s events)) ->
    In t (targets s) \/ In t (held_pid s) \/ In t (flat_map spawned_pid events).
Proof.
  unfold run. induction events as [| e events IH]; intros s t H.
  - cbn [fold_left flat_map] in *. tauto.
  - cbn [fold_left flat_map] in *. apply IH in H.
    rewrite in_app_iff.
    destruct H as [H | [H | H]].
    + apply step_targets in H. tauto.
    + apply step_held in H. tauto.
    + tauto.
Qed.

Lemma termination_attempts_set (p : option ChildProcess) (s : State) :
  termination_attempts (set_pythonProcess p s) = termination_attempts s.
Proof. reflexivity. Qed.

Lemma step_attempts (platform : string) (s : State) (e : Event) :
  termination_attempts (step platform s e)
  <= termination_attempts s + (if is_stop_request e then 1 else 0).
Proof.
  destruct e; cbn [step createWindow on_window_all_closed on_will_quit fst is_stop_request].
  - unfold createWindow, startPythonBackend. cbv zeta. destruct spawned;
      rewrite ?termination_attempts_set, !termination_attempts_emit;
      cbn [is_termination]; lia.
  - rewrite stopPythonBackend_attempts. unfold held. destruct (pythonProcess s); lia.
  - unfold on_will_quit. rewrite stopPythonBackend_attempts.
    unfold held. destruct (pythonProcess s); lia.
  - unfold on_close. rewrite termination_attempts_set, termination_attempts_emit.
    cbn [is_termination]. lia.
Qed.

Lemma run_attempts (platform : string) (events : list Event) :
  forall s : State,
    termination_attempts (run platform s events)
    <= termination_attempts s + length (filter is_stop_request events).
Proof.
  unfold run. induction events as [| e events IH]; intros s.
  - cbn. lia.
  - cbn [fold_left filter]. specialize (IH (step platform s e)).
    pose proof (step_attempts platform s e) as Hstep.
    destruct (is_stop_request e); cbn [length]; lia.
Qed.

(** X16. Whatever windows are created and closed and whatever children
    exit, every termination attempt is aimed at the pid of a child that
    [spawn] returned, there are at most as many attempts as stop requests
    (['window-all-closed'] and ['will-quit']), and none at all if [spawn]
    never returned a child, that is, if it threw every time. A child that
    [spawn] returned without a pid, because the executable could not be
    launched, is held like any other: closing the window and quitting
    then issue two attempts aimed at the undefined pid. *)
Theorem supervisor_only_terminates_what_it_spawned :
  forall (platform : string) (events : list Event),
    let s := run platform initial_state events in
    (forall t, In t (targets s) -> In t (flat_map spawned_pid events))
    /\ termination_attempts s <= length (filter is_stop_request events)
    /\ (flat_map spawned_pid events = [] -> termination_attempts s = 0)
    /\ targets (run platform initial_state
                  [CreateWindow (Some None); WindowAllClosed; WillQuit])
       = [None; None].
Proof.
  intros platform events. cbv zeta.
  assert (Hfailed : targets (run platform initial_state
                               [CreateWindow (Some None); WindowAllClosed; WillQuit])
                    = [None; None]).
  { unfold run. cbn [fold_left step on_window_all_closed fst].
    unfold on_will_quit, createWindow.
    rewrite !stop_targets, targets_start. unfold held_pid.
    rewrite stopPythonBackend_keeps_handle. reflexivity. }
  assert (Hknown : forall t, In t (targets (run platform initial_state events)) ->
                             In t (flat_map spawned_pid events)).
  { intros t Ht.
    destruct (run_known platform events initial_state t (or_introl Ht))
      as [H | [H | H]]; [destruct H | destruct H | exact H]. }
  split; [exact Hknown |]. split; [| split; [| exact Hfailed]].
  - apply (run_attempts platform events initial_state).
  - intros Hnone. unfold termination_attempts.
    destruct (filter is_termination (effects (run platform initial_state events)))
      as [| e rest] eqn:Hf; [reflexivity |].
    exfalso.
    assert (He : In e (filter is_termination (effects (run platform initial_state events))))
      by (rewrite Hf; left; reflexivity).
    apply filter_In in He. destruct He as [Hin Hterm].
    assert (Ht : exists t, In t (targets (run platform initial_state events))).
    { unfold targets. destruct e; try discriminate Hterm.
      - exists target0. apply in_flat_map. eexists. split; [exact Hin | left; reflexivity].
      - exists (pid p). apply in_flat_map. eexists. split; [exact Hin | left; reflexivity]. }
    destruct Ht as [t Ht]. apply Hknown in Ht. rewrite Hnone in Ht. exact Ht.
Qed.

Lemma supervisor_only_terminates_what_it_spawned_witness :
  In (Some 7%Z)
     (targets (run "linux" initial_state
                 [CreateWindow (Some (Some 7%Z)); WindowAllClosed; WillQuit]))
  /\ In (Some 7%Z)
        (flat_map spawned_pid
           [CreateWindow (Some (Some 7%Z)); WindowAllClosed; WillQuit]).
Proof.
  assert (H : In (Some 7%Z)
                (targets (run "linux" initial_state
                            [CreateWindow (Some (Some 7%Z)); WindowAllClosed; WillQuit])))
    by (left; reflexivity).
  split; [exact H |].
  apply (supervisor_only_terminates_what_it_spawned "linux"
           [CreateWindow (Some (Some 7%Z)); WindowAllClosed; WillQuit]).
  exact H.
Defined.

Lemma iter_stop_targets (platform : string) (n : nat) (s : State) :
  targets (Nat.iter n (stopPythonBackend platform) s)
  = targets s ++ concat (repeat (held_pid s) n).
Proof.
  induction n as [| n IH]; [cbn; rewrite app_nil_r; reflexivity |].
  rewrite Nat.iter_succ, stop_targets, IH.
  assert (Hheld : held_pid (Nat.iter n (stopPythonBackend platform) s) = held_pid s).
  { unfold held_pid. clear IH. induction n as [| n IHn]; [reflexivity |].
    rewrite Nat.iter_succ, stopPythonBackend_keeps_handle. exact IHn. }
  rewrite Hheld, <- app_assoc. f_equal.
  clear. induction n as [| n IHn]; [cbn; rewrite app_nil_r; reflexivity |].
  cbn [repeat concat]. rewrite <- app_assoc, IHn. reflexivity.
Qed.

(** X17. A second successful start replaces the handle: every later stop
    is aimed at the second child, and the first child is never
    signalled. *)
Theorem second_start_orphans_the_first_child :
  forall (platform : string) (s : State) (p1 p2 : option Z) (n : nat),
    let s2 := startPythonBackend platform (Some p2)
                (startPythonBackend platform (Some p1) s) in
    targets (Nat.iter n (stopPythonBackend platform) s2) = targets s ++ repeat p2 n
    /\ pythonProcess s2
       = Some (mkChildProcess p2 (pythonExecutablePath platform)).
Proof.
  intros platform s p1 p2 n. cbv zeta. split; [| reflexivity].
  rewrite iter_stop_targets, !targets_start. f_equal.
  cbn [held_pid startPythonBackend set_pythonProcess pythonProcess pid].
  induction n as [| n IH]; [reflexivity |].
  cbn [repeat concat app]. rewrite IH. reflexivity.
Qed.

Lemma step_follows_platform (platform : string) (s : State) (ev : Event) :
  (forall e, In e (effects s) -> follows_platform platform e) ->
  forall e, In e (effects (step platform s ev)) -> follows_platform platform e.
Proof.
  intros Hs e He.
  destruct ev; cbn [step on_window_all_closed fst] in He;
    unfold createWindow, on_will_quit in He.
  - unfold startPythonBackend in He.
    destruct spawned; cbn [set_pythonProcess emit effects pythonProcess] in He;
      repeat (apply in_app_or in He; destruct He as [He | He]);
      try (apply Hs, He); try (destruct He as [<- | []]; exact I).
  - unfold stopPythonBackend in He. destruct (pythonProcess s); [| apply Hs, He].
    destruct (String.eqb platform "win32") eqn:Hp;
      cbn [emit effects pythonProcess] in He;
      repeat (apply in_app_or in He; destruct He as [He | He]);
      try (apply Hs, He);
      try (destruct He as [<- | []]; first [exact I | exact Hp]).
  - unfold stopPythonBackend in He. destruct (pythonProcess s); [| apply Hs, He].
    destruct (String.eqb platform "win32") eqn:Hp;
      cbn [emit effects pythonProcess] in He;
      repeat (apply in_app_or in He; destruct He as [He | He]);
      try (apply Hs, He);
      try (destruct He as [<- | []]; first [exact I | exact Hp]).
  - unfold on_close in He. cbn [set_pythonProcess emit effects pythonProcess] in He.
    apply in_app_or in He. destruct He as [He | [<- | []]]; [apply Hs, He | exact I].
Qed.

(** X18. On win32 the supervisor only ever terminates through [taskkill],
    on every other platform only through [kill]. *)
Theorem termination_follows_the_platform :
  forall (platform : string) (events : list Event) (e : Effect),
    In e (effects (run platform initial_state events)) ->
    match e with
    | SpawnTaskkill _ => String.eqb platform "win32" = true
    | Kill _ => String.eqb platform "win32" = false
    | _ => True
    end.
Proof.
  intros platform events.
  assert (Hgen : forall s,
             (forall e, In e (effects s) -> follows_platform platform e) ->
             forall e, In e (effects (run platform s events)) ->
                       follows_platform platform e).
  { unfold run. induction events as [| ev events IH]; intros s Hs; [exact Hs |].
    cbn [fold_left]. apply IH. apply step_follows_platform, Hs. }
  apply Hgen. intros e [].
Qed.

Lemma termination_follows_the_platform_witness :
  String.eqb "win32" "win32" = true.
Proof.
  apply (termination_follows_the_platform "win32"
           [CreateWindow (Some (Some 7%Z)); WillQuit]
           (SpawnTaskkill (Some 7%Z))).
  right. right. right. left. reflexivity.
Defined.

End SupervisorProps.

(* ------------------------------------------------------------------ *)
(** ** Properties of the packaging script *)

Module PackagerProps.

Import Js Packager.

(** *** The builder configuration *)




















(** X22. A [null] entry in [extraResources] that comes before any resource
    from ['python_dist/'] makes [updateBuilderConfig] throw a TypeError
    ([typeof null] is ['object']), so nothing is written. *)
Theorem updateBuilderConfig_throws_on_null_resource :
  forall (props bprops : list (string * value)) (before after : list value),
    prop_of props "build" = Obj bprops ->
    prop_of bprops "extraResources" = Arr (before ++ Null :: after) ->
    some before = Ok false ->
    updateBuilderConfig (Obj props) = Throws TypeError.
Proof.
  intros props bprops before after Hb He Hbefore.
  cbn [updateBuilderConfig]. rewrite Hb. cbn [Js.or truthy ensure_resource].
  rewrite He. cbn [Js.or truthy].
  assert (Hsome : some (before ++ Null :: after) = Throws TypeError).
  { clear He. induction before as [| r before IH]; [reflexivity |].
    rewrite <- app_comm_cons. cbn [some] in *.
    destruct (is_pythonResource r) as [[|] | e]; try discriminate.
    apply IH, Hbefore. }
  rewrite Hsome. reflexivity.
Qed.

Lemma updateBuilderConfig_throws_on_null_resource_witness :
  updateBuilderConfig
    (Obj [("build", Obj [("extraResources", Arr [Str "assets/"; Null])])])
  = Throws TypeError.
Proof.
  apply (updateBuilderConfig_throws_on_null_resource
           [("build", Obj [("extraResources", Arr [Str "assets/"; Null])])]
           [("extraResources", Arr [Str "assets/"; Null])]
           [Str "assets/"] []);
    reflexivity.
Defined.

End PackagerProps.
